(** * lwa-backend: form validation, sanitizing and mail dispatch

    A shallow embedding of the Express application of this repository:
    [src/server.js] and the first copy held in [src/unnamed/part_000]
    (lines 1-256).  Both files define a [sanitize] helper and two POST
    routes, [/api/booking] and [/api/contact], which validate the form
    fields with express-validator chains, build one mail message and hand
    it to the nodemailer transport.

    The second copy in [src/unnamed/part_000] (lines 258-347) repeats the
    helper, the chains and the answers of [src/server.js] around other
    HTML templates; it is written out after the two others and compared
    with [src/server.js].

    The model starts where a request has passed the rate limiter and
    reaches the validation chains of a route. *)

From Stdlib Require Import String Ascii NArith ZArith List Bool Arith Lia.
Import ListNotations.

(* ================================================================= *)
(** ** JavaScript strings and values *)

(** A JavaScript string is a sequence of UTF-16 code units; [length] is
    the [.length] property. *)
Definition codeunit := N.
Definition jsstring := list codeunit.

(** [u16 s] is the JavaScript string written by the ASCII literal [s]. *)
Definition u16 (s : string) : jsstring :=
  map N_of_ascii (list_ascii_of_string s).

(** [tpl s] reads a fragment of a template literal.  A template literal is
    delimited by backquotes and so holds none; the fragments below write a
    backquote where the source has a double quote. *)
Definition tpl (s : string) : jsstring :=
  map (fun c => if N.eqb c 96 then 34%N else c) (u16 s).

(** The values a form field, an environment variable or a mail option can
    hold here: [undefined], [null], a boolean or a string.  A form field
    can also arrive as an array; the routes below are modelled for fields
    that are not arrays, and [body_array] further down shows what a chain
    does to one that is. *)
Inductive value : Type :=
| VUndefined
| VNull
| VBool (b : bool)
| VString (s : jsstring).

(** ToBoolean: [!v] is [negb (truthy v)]. *)
Definition truthy (v : value) : bool :=
  match v with
  | VUndefined | VNull => false
  | VBool b => b
  | VString s => match s with [] => false | _ :: _ => true end
  end.

(** [String(v)], which is also what [${v}] yields inside a template. *)
Definition String_ (v : value) : jsstring :=
  match v with
  | VUndefined => u16 "undefined"
  | VNull => u16 "null"
  | VBool true => u16 "true"
  | VBool false => u16 "false"
  | VString s => s
  end.

(** White space and line terminators: what [String.prototype.trim] strips
    and what the class [\s] of a regular expression matches. *)
Definition isWhiteSpace (c : codeunit) : bool :=
  ((9 <=? c) && (c <=? 13) || (c =? 32) || (c =? 160) || (c =? 0x1680)
   || (0x2000 <=? c) && (c <=? 0x200A)
   || (c =? 0x2028) || (c =? 0x2029) || (c =? 0x202F) || (c =? 0x205F)
   || (c =? 0x3000) || (c =? 0xFEFF))%N.

Fixpoint trimStart (s : jsstring) : jsstring :=
  match s with
  | [] => []
  | c :: t => if isWhiteSpace c then trimStart t else s
  end.

Definition trimEnd (s : jsstring) : jsstring := rev (trimStart (rev s)).

(** [s.trim()] *)
Definition trim (s : jsstring) : jsstring := trimEnd (trimStart s).

(** [s.replace(/c/g, rep)] for a pattern that is one literal character and
    a replacement without [$]. *)
Definition replace_g (c : codeunit) (rep : jsstring) (s : jsstring) : jsstring :=
  flat_map (fun x => if N.eqb x c then rep else [x]) s.

(** [s.substring(a, b)]: the arguments are clamped to the length and
    swapped when [a > b]. *)
Definition substring (s : jsstring) (a b : nat) : jsstring :=
  firstn (Nat.max a b - Nat.min a b) (skipn (Nat.min a b) s).

(** Characters used by name. *)
Definition LT : codeunit := 60%N.   (* < *)
Definition GT : codeunit := 62%N.   (* > *)
Definition DQUOTE : codeunit := 34%N.
Definition SQUOTE : codeunit := 39%N.
Definition AMP : codeunit := 38%N.
Definition SLASH : codeunit := 47%N.
Definition BACKSLASH : codeunit := 92%N.
Definition BACKQUOTE : codeunit := 96%N.
Definition LF : codeunit := 10%N.
Definition CR : codeunit := 13%N.

(* ================================================================= *)
(** ** The validators and sanitizers of express-validator

    The routes use the standard validators and sanitizers of
    express-validator, which delegates to validator.js.  The three
    that rewrite or measure plain text are written out; the remaining
    ones (address syntax, address normalisation, ISO 8601 syntax, date
    parsing, the character count of [isLength]) and the date formatting of
    the runtime are collected in [Deps]. *)

(** validator.js [ltrim], [rtrim] and [trim] without a [chars] argument:
    strip [\s] from the start, from the end, from both. *)
Definition ltrim (s : jsstring) : jsstring := trimStart s.
Definition rtrim (s : jsstring) : jsstring := trimEnd s.
Definition validator_trim (s : jsstring) : jsstring := rtrim (ltrim s).

(** validator.js [escape] replaces the ampersand, the double quote, the
    apostrophe, [<], [>], the slash, the backslash and the backquote by
    HTML entities, in this order. *)
Definition escape (s : jsstring) : jsstring :=
  replace_g BACKQUOTE (u16 "&#96;")
    (replace_g BACKSLASH (u16 "&#x5C;")
       (replace_g SLASH (u16 "&#x2F;")
          (replace_g GT (u16 "&gt;")
             (replace_g LT (u16 "&lt;")
                (replace_g SQUOTE (u16 "&#x27;")
                   (replace_g DQUOTE (u16 "&quot;")
                      (replace_g AMP (u16 "&amp;") s))))))).

(** validator.js [isEmpty] with its default options. *)
Definition isEmpty (s : jsstring) : bool := Nat.eqb (length s) 0.

Record Deps : Type := {
  (** validator.js [isEmail] with its default options *)
  isEmail : jsstring -> bool;
  (** validator.js [normalizeEmail]: the rewritten address, or [false] *)
  normalizeEmail : jsstring -> value;
  (** validator.js [isISO8601] *)
  isISO8601 : jsstring -> bool;
  (** validator.js [toDate]: a Date (milliseconds since the epoch) or
      [null] *)
  toDate : jsstring -> option Z;
  (** the number of characters that validator.js [isLength] compares with
      [min] and [max] *)
  charCount : jsstring -> nat;
  (** [d.toLocaleDateString()] *)
  toLocaleDateString : Z -> jsstring;
  (** [d.toLocaleDateString('en-US', { weekday:'long', year:'numeric',
      month:'long', day:'numeric' })] *)
  toLocaleDateString_enUS : Z -> jsstring;
  (** [new Date().toISOString()] at the time of the request *)
  now_toISOString : jsstring
}.

(** [isLength] counts a string without surrogates and variation selectors
    by its [.length]. *)
Definition counts_plain_text (deps : Deps) : Prop :=
  forall s : jsstring,
    Forall (fun c => (c < 0xD800)%N) s -> charCount deps s = length s.

(** validator.js [isLength(str, { min, max })]; an absent [min] is 0. *)
Definition isLength (deps : Deps) (min : nat) (max : option nat)
    (s : jsstring) : bool :=
  let len := charCount deps s in
  Nat.leb min len
  && match max with None => true | Some m => Nat.leb len m end.

(** express-validator's [toString], applied to the field before every
    standard validator and sanitizer. *)
Definition toString (v : value) : jsstring :=
  match v with
  | VUndefined | VNull => []
  | _ => String_ v
  end.

(** A validation chain, [body(field).a().b()...]: its items run in the
    order written.  A sanitizer replaces the field in [req.body]; a
    validator that fails records one error and the chain goes on.
    [body] runs a chain on a field that is not an array. *)
Inductive item : Type :=
| Sanitizer (f : jsstring -> value)
| Validator (p : jsstring -> bool).

Definition chain := list item.

Fixpoint body (c : chain) (field : value) : value * nat :=
  match c with
  | [] => (field, 0)
  | Sanitizer f :: c' => body c' (f (toString field))
  | Validator p :: c' =>
      let r := body c' field in
      (fst r, (if p (toString field) then 0 else 1) + snd r)
  end.

(** On a field that is an array, each validator and each sanitizer visits
    the elements one by one: a validator records an error for each element
    that fails, a sanitizer puts the array of the sanitized elements back.
    On the empty array nothing is visited. *)
Fixpoint body_array (c : chain) (items : list value) : list value * nat :=
  match c with
  | [] => (items, 0)
  | Sanitizer f :: c' => body_array c' (map (fun e => f (toString e)) items)
  | Validator p :: c' =>
      let r := body_array c' items in
      (fst r,
       length (filter (fun e => negb (p (toString e))) items) + snd r)
  end.

Definition trim_ : item := Sanitizer (fun s => VString (validator_trim s)).
Definition escape_ : item := Sanitizer (fun s => VString (escape s)).
Definition notEmpty : item := Validator (fun s => negb (isEmpty s)).
Definition isLength_ (deps : Deps) (min : nat) (max : option nat) : item :=
  Validator (isLength deps min max).
Definition isEmail_ (deps : Deps) : item := Validator (isEmail deps).
Definition normalizeEmail_ (deps : Deps) : item :=
  Sanitizer (normalizeEmail deps).
Definition isISO8601_ (deps : Deps) : item := Validator (isISO8601 deps).

(** [new Date(d)] for [d] a Date or [null], as milliseconds. *)
Definition new_Date (d : option Z) : Z :=
  match d with Some t => t | None => 0%Z end.

(* ================================================================= *)
(** ** Requests, mail and the world of a handler *)

(** [process.env] *)
Record Env : Type := {
  SMTP_USER : value;
  BUSINESS_EMAIL : value
}.

(** The options object passed to [transporter.sendMail]. *)
Record Mail : Type := {
  from : jsstring;
  to : value;
  replyTo : value;
  subject : jsstring;
  html : jsstring
}.

(** How the promise of [sendMail] settles: resolved, or rejected with an
    error whose [message] is given. *)
Inductive Settled : Type :=
| Resolved
| Rejected (err_message : jsstring).

(** [res.status(n).json({ success, message })]; [res.json] alone has
    status 200. *)
Record Response : Type := {
  status : nat;
  success : bool;
  message : option jsstring
}.

Inductive LogLine : Type :=
| console_log (args : list jsstring)
| console_error (args : list jsstring).

(** What a handler leaves behind: the messages handed to the transport and
    the lines written to the console, oldest first. *)
Record World : Type := {
  outbox : list Mail;
  console : list LogLine
}.

Definition M (A : Type) : Type := World -> A * World.

Definition ret {A : Type} (a : A) : M A := fun w => (a, w).

Definition bind {A B : Type} (m : M A) (k : A -> M B) : M B :=
  fun w => let (a, w') := m w in k a w'.

Notation "x <- m ;; k" := (bind m (fun x => k))
  (at level 61, m at next level, right associativity).
Notation "m ;;; k" := (bind m (fun _ => k))
  (at level 61, right associativity).

(** [await transporter.sendMail(m)]: one delivery attempt. *)
Definition sendMail (transporter : Mail -> Settled) (m : Mail) : M Settled :=
  fun w => (transporter m,
            {| outbox := outbox w ++ [m]; console := console w |}).

Definition log (l : LogLine) : M unit :=
  fun w => (tt, {| outbox := outbox w; console := console w ++ [l] |}).

Definition respond (st : nat) (ok : bool) (msg : option jsstring) : Response :=
  {| status := st; success := ok; message := msg |}.

Definition json (st : nat) (ok : bool) (msg : option jsstring) : M Response :=
  ret (respond st ok msg).

Definition start : World := {| outbox := []; console := [] |}.

(** The form fields of [req.body] as they arrive, none of them an
    array. *)
Module Booking.
Record Form : Type := {
  firstName : value;
  lastName : value;
  email : value;
  date : value;
  time : value
}.
End Booking.

Module Contact.
Record Form : Type := {
  name : value;
  email : value;
  message : value
}.
End Contact.

(** Marks that open the subject lines and the reply hint. *)
Definition CALENDAR : jsstring := [0xD83D%N; 0xDCC5%N].  (* U+1F4C5 *)
Definition EM_DASH : jsstring := [0x2014%N].
Definition ENVELOPE : jsstring := [0x2709%N; 0xFE0F%N].
Definition LIGHT_BULB : jsstring := [0xD83D%N; 0xDCA1%N]. (* U+1F4A1 *)
Definition CROSS_MARK : jsstring := [0x274C%N].
Definition CHECK_MARK : jsstring := [0x2705%N].

(* ================================================================= *)
(** ** [src/server.js] *)

Module ServerJs.

(** [src/server.js], lines 79-86. *)
Definition sanitize (str : value) : jsstring :=
  if negb (truthy str) then []
  else
    substring
      (trim
         (replace_g GT (u16 "&gt;")
            (replace_g LT (u16 "&lt;") (String_ str))))
      0 500.

(** The template literals of the two messages, with their holes. *)
Definition sender (env : Env) : jsstring :=
  tpl "`LWA Website` <"
    ++ String_ (SMTP_USER env)
    ++ tpl ">".

Definition booking_subject (first last : jsstring) : jsstring :=
  CALENDAR
    ++ tpl " New Booking "
    ++ EM_DASH
    ++ tpl " "
    ++ first
    ++ tpl " "
    ++ last.

Definition booking_html (first last email date time : jsstring) : jsstring :=
  tpl "
        <div style=`font-family:Arial,sans-serif;padding:30px;background:#f9f9f9`>
          <div style=`background:#080c0a;padding:20px;text-align:center;border-radius:8px 8px 0 0`>
            <h2 style=`color:#00e87a;margin:0`>LWA Leads Group</h2>
            <p style=`color:#7a9484;margin:4px 0 0;font-size:13px`>
              New Booking Request
            </p>
          </div>
          <div style=`background:#fff;padding:24px;border:1px solid #e0e0e0;border-top:none;border-radius:0 0 8px 8px`>
            <p><strong>Name:</strong> "
    ++ first
    ++ tpl " "
    ++ last
    ++ tpl "</p>
            <p><strong>Email:</strong> "
    ++ email
    ++ tpl "</p>
            <p><strong>Date:</strong> "
    ++ date
    ++ tpl "</p>
            <p><strong>Time:</strong> "
    ++ time
    ++ tpl "</p>
          </div>
        </div>
        ".

Definition contact_subject (name : jsstring) : jsstring :=
  ENVELOPE
    ++ tpl " New Message from "
    ++ name.

Definition contact_html (name email message : jsstring) : jsstring :=
  tpl "
        <div style=`font-family:Arial,sans-serif;padding:30px;background:#f9f9f9`>
          <div style=`background:#080c0a;padding:20px;text-align:center;border-radius:8px 8px 0 0`>
            <h2 style=`color:#00e87a;margin:0`>LWA Leads Group</h2>
          </div>
          <div style=`background:#fff;padding:24px;border:1px solid #e0e0e0;border-top:none;border-radius:0 0 8px 8px`>
            <p><strong>Name:</strong> "
    ++ name
    ++ tpl "</p>
            <p><strong>Email:</strong> "
    ++ email
    ++ tpl "</p>
            <p><strong>Message:</strong></p>
            <div style=`background:#f8f8f8;padding:16px;border-radius:4px`>
              "
    ++ message
    ++ tpl "
            </div>
          </div>
        </div>
        ".

Section Routes.

Variable deps : Deps.
Variable env : Env.
Variable transporter : Mail -> Settled.

(** *** POST /api/booking, lines 98-146 *)

(** The validation chains, lines 101-107: each gives the field as it is
    left in [req.body] and the number of errors it recorded. *)
Definition booking_firstName (req : Booking.Form) : value * nat :=
  body [trim_; notEmpty; escape_] (Booking.firstName req).
Definition booking_lastName (req : Booking.Form) : value * nat :=
  body [trim_; notEmpty; escape_] (Booking.lastName req).
Definition booking_email (req : Booking.Form) : value * nat :=
  body [isEmail_ deps; normalizeEmail_ deps] (Booking.email req).
Definition booking_time (req : Booking.Form) : value * nat :=
  body [notEmpty; trim_; escape_] (Booking.time req).

(** [body('date').notEmpty().isISO8601().toDate()]: [toDate] closes the
    chain and leaves a Date or [null] in [req.body.date]. *)
Definition booking_date (req : Booking.Form) : option Z * nat :=
  (toDate deps (toString (Booking.date req)),
   snd (body [notEmpty; isISO8601_ deps] (Booking.date req))).

(** The number of errors [validationResult(req)] holds. *)
Definition booking_validationResult (req : Booking.Form) : nat :=
  snd (booking_firstName req) + snd (booking_lastName req)
  + snd (booking_email req) + snd (booking_date req)
  + snd (booking_time req).

(** The object passed to [sendMail], lines 116-137. *)
Definition booking_mailOptions (req : Booking.Form) : Mail :=
  let firstName := fst (booking_firstName req) in
  let lastName := fst (booking_lastName req) in
  let email := fst (booking_email req) in
  let date := fst (booking_date req) in
  let time := fst (booking_time req) in
  {| from := sender env;
     to := BUSINESS_EMAIL env;
     replyTo := email;
     subject := booking_subject (sanitize firstName) (sanitize lastName);
     html := booking_html (sanitize firstName) (sanitize lastName)
               (sanitize email)
               (toLocaleDateString deps (new_Date date))
               (sanitize time) |}.

Definition post_api_booking (req : Booking.Form) : M Response :=
  if negb (Nat.eqb (booking_validationResult req) 0) then
    json 400 false (Some (u16 "Invalid data."))
  else
    r <- sendMail transporter (booking_mailOptions req) ;;
    match r with
    | Resolved => json 200 true None
    | Rejected err_message =>
        log (console_error
               [CROSS_MARK ++ u16 " Booking failed:"; err_message]) ;;;
        json 500 false (Some (u16 "Failed to send."))
    end.

(** *** POST /api/contact, lines 150-200 *)

Definition contact_name (req : Contact.Form) : value * nat :=
  body [trim_; notEmpty; escape_] (Contact.name req).
Definition contact_email (req : Contact.Form) : value * nat :=
  body [isEmail_ deps; normalizeEmail_ deps] (Contact.email req).
Definition contact_message (req : Contact.Form) : value * nat :=
  body [trim_; notEmpty; isLength_ deps 10 (Some 2000); escape_]
    (Contact.message req).

Definition contact_validationResult (req : Contact.Form) : nat :=
  snd (contact_name req) + snd (contact_email req)
  + snd (contact_message req).

(** The object passed to [sendMail], lines 171-191. *)
Definition contact_mailOptions (req : Contact.Form) : Mail :=
  let name := fst (contact_name req) in
  let email := fst (contact_email req) in
  let message := fst (contact_message req) in
  {| from := sender env;
     to := BUSINESS_EMAIL env;
     replyTo := email;
     subject := contact_subject (sanitize name);
     html := contact_html (sanitize name) (sanitize email)
               (sanitize message) |}.

Definition post_api_contact (req : Contact.Form) : M Response :=
  if negb (Nat.eqb (contact_validationResult req) 0) then
    json 400 false (Some (u16 "Invalid data."))
  else
    r <- sendMail transporter (contact_mailOptions req) ;;
    match r with
    | Resolved => json 200 true None
    | Rejected err_message =>
        log (console_error
               [CROSS_MARK ++ u16 " Contact failed:"; err_message]) ;;;
        json 500 false (Some (u16 "Failed to send."))
    end.

End Routes.

End ServerJs.

(* ================================================================= *)
(** ** [src/unnamed/part_000], first copy (lines 1-256) *)

Module Part000.

(** [src/unnamed/part_000], lines 84-93. *)
Definition sanitize (str : value) : jsstring :=
  if negb (truthy str) then []
  else
    substring
      (trim
         (replace_g SQUOTE (u16 "&#x27;")
            (replace_g DQUOTE (u16 "&quot;")
               (replace_g GT (u16 "&gt;")
                  (replace_g LT (u16 "&lt;") (String_ str))))))
      0 500.

(** The template literals of the two messages, with their holes. *)
Definition sender (env : Env) : jsstring :=
  tpl "`LWA Website` <"
    ++ String_ (SMTP_USER env)
    ++ tpl ">".

Definition booking_subject (safeFirst safeLast : jsstring) : jsstring :=
  CALENDAR
    ++ tpl " New Booking Request "
    ++ EM_DASH
    ++ tpl " "
    ++ safeFirst
    ++ tpl " "
    ++ safeLast.

Definition booking_html
    (safeFirst safeLast safeEmail safeDate safeTime : jsstring) : jsstring :=
  tpl "
        <div style=`font-family:Arial,sans-serif;max-width:600px;margin:auto;background:#f9f9f9;padding:30px;border-radius:8px;`>
          <div style=`background:#080c0a;padding:20px;border-radius:6px 6px 0 0;text-align:center;`>
            <h2 style=`color:#00e87a;margin:0;font-size:22px;`>LWA Leads Group</h2>
            <p style=`color:#7a9484;margin:6px 0 0;font-size:13px;`>New Booking Request</p>
          </div>
          <div style=`background:#fff;padding:24px;border-radius:0 0 6px 6px;border:1px solid #e0e0e0;border-top:none;`>
            <table style=`width:100%;border-collapse:collapse;`>
              <tr>
                <td style=`padding:10px 0;border-bottom:1px solid #f0f0f0;color:#666;width:35%;font-size:14px;`><strong>Full Name</strong></td>
                <td style=`padding:10px 0;border-bottom:1px solid #f0f0f0;color:#222;font-size:14px;`>"
    ++ safeFirst
    ++ tpl " "
    ++ safeLast
    ++ tpl "</td>
              </tr>
              <tr>
                <td style=`padding:10px 0;border-bottom:1px solid #f0f0f0;color:#666;font-size:14px;`><strong>Email</strong></td>
                <td style=`padding:10px 0;border-bottom:1px solid #f0f0f0;color:#222;font-size:14px;`>"
    ++ safeEmail
    ++ tpl "</td>
              </tr>
              <tr>
                <td style=`padding:10px 0;border-bottom:1px solid #f0f0f0;color:#666;font-size:14px;`><strong>Preferred Date</strong></td>
                <td style=`padding:10px 0;border-bottom:1px solid #f0f0f0;color:#222;font-size:14px;`>"
    ++ safeDate
    ++ tpl "</td>
              </tr>
              <tr>
                <td style=`padding:10px 0;color:#666;font-size:14px;`><strong>Preferred Time</strong></td>
                <td style=`padding:10px 0;color:#222;font-size:14px;`>"
    ++ safeTime
    ++ tpl "</td>
              </tr>
            </table>
            <div style=`margin-top:20px;padding:12px;background:#f0fdf4;border-left:3px solid #00e87a;border-radius:4px;`>
              <p style=`margin:0;font-size:13px;color:#444;`>"
    ++ LIGHT_BULB
    ++ tpl " Hit <strong>Reply</strong> to respond directly to "
    ++ safeFirst
    ++ tpl ".</p>
            </div>
          </div>
          <p style=`text-align:center;color:#aaa;font-size:11px;margin-top:16px;`>Sent from LWA Leads Group website</p>
        </div>
      ".

Definition contact_subject (safeName : jsstring) : jsstring :=
  ENVELOPE
    ++ tpl " New Message from "
    ++ safeName.

Definition contact_html (safeName safeEmail safeMessage : jsstring) : jsstring :=
  tpl "
        <div style=`font-family:Arial,sans-serif;max-width:600px;margin:auto;background:#f9f9f9;padding:30px;border-radius:8px;`>
          <div style=`background:#080c0a;padding:20px;border-radius:6px 6px 0 0;text-align:center;`>
            <h2 style=`color:#00e87a;margin:0;font-size:22px;`>LWA Leads Group</h2>
            <p style=`color:#7a9484;margin:6px 0 0;font-size:13px;`>New Contact Message</p>
          </div>
          <div style=`background:#fff;padding:24px;border-radius:0 0 6px 6px;border:1px solid #e0e0e0;border-top:none;`>
            <table style=`width:100%;border-collapse:collapse;`>
              <tr>
                <td style=`padding:10px 0;border-bottom:1px solid #f0f0f0;color:#666;width:25%;font-size:14px;`><strong>Name</strong></td>
                <td style=`padding:10px 0;border-bottom:1px solid #f0f0f0;color:#222;font-size:14px;`>"
    ++ safeName
    ++ tpl "</td>
              </tr>
              <tr>
                <td style=`padding:10px 0;border-bottom:1px solid #f0f0f0;color:#666;font-size:14px;`><strong>Email</strong></td>
                <td style=`padding:10px 0;border-bottom:1px solid #f0f0f0;color:#222;font-size:14px;`>"
    ++ safeEmail
    ++ tpl "</td>
              </tr>
            </table>
            <div style=`margin-top:20px;`>
              <p style=`color:#666;font-size:14px;margin-bottom:8px;`><strong>Message:</strong></p>
              <div style=`background:#f8f8f8;padding:16px;border-radius:4px;border:1px solid #eee;color:#333;font-size:14px;line-height:1.7;white-space:pre-wrap;`>"
    ++ safeMessage
    ++ tpl "</div>
            </div>
            <div style=`margin-top:20px;padding:12px;background:#f0fdf4;border-left:3px solid #00e87a;border-radius:4px;`>
              <p style=`margin:0;font-size:13px;color:#444;`>"
    ++ LIGHT_BULB
    ++ tpl " Hit <strong>Reply</strong> to respond directly to "
    ++ safeName
    ++ tpl ".</p>
            </div>
          </div>
          <p style=`text-align:center;color:#aaa;font-size:11px;margin-top:16px;`>Sent from LWA Leads Group website</p>
        </div>
      ".

Section Routes.

Variable deps : Deps.
Variable env : Env.
Variable transporter : Mail -> Settled.

(** *** POST /api/booking, lines 101-172 *)

(** The validation chains, lines 103-109. *)
Definition booking_firstName (req : Booking.Form) : value * nat :=
  body [trim_; notEmpty; isLength_ deps 0 (Some 50); escape_]
    (Booking.firstName req).
Definition booking_lastName (req : Booking.Form) : value * nat :=
  body [trim_; notEmpty; isLength_ deps 0 (Some 50); escape_]
    (Booking.lastName req).
Definition booking_email (req : Booking.Form) : value * nat :=
  body [isEmail_ deps; normalizeEmail_ deps] (Booking.email req).
Definition booking_time (req : Booking.Form) : value * nat :=
  body [notEmpty; trim_; isLength_ deps 0 (Some 20); escape_]
    (Booking.time req).

(** [body('date').notEmpty().isISO8601().toDate()]: [toDate] closes the
    chain and leaves a Date or [null] in [req.body.date]. *)
Definition booking_date (req : Booking.Form) : option Z * nat :=
  (toDate deps (toString (Booking.date req)),
   snd (body [notEmpty; isISO8601_ deps] (Booking.date req))).

(** The number of errors [validationResult(req)] holds. *)
Definition booking_validationResult (req : Booking.Form) : nat :=
  snd (booking_firstName req) + snd (booking_lastName req)
  + snd (booking_email req) + snd (booking_date req)
  + snd (booking_time req).

(** [mailOptions], lines 117-161. *)
Definition booking_mailOptions (req : Booking.Form) : Mail :=
  let firstName := fst (booking_firstName req) in
  let lastName := fst (booking_lastName req) in
  let email := fst (booking_email req) in
  let date := fst (booking_date req) in
  let time := fst (booking_time req) in
  let safeFirst := sanitize firstName in
  let safeLast := sanitize lastName in
  let safeEmail := sanitize email in
  let safeDate := toLocaleDateString_enUS deps (new_Date date) in
  let safeTime := sanitize time in
  {| from := sender env;
     to := BUSINESS_EMAIL env;
     replyTo := VString safeEmail;
     subject := booking_subject safeFirst safeLast;
     html := booking_html safeFirst safeLast safeEmail safeDate safeTime |}.

Definition post_api_booking (req : Booking.Form) : M Response :=
  if negb (Nat.eqb (booking_validationResult req) 0) then
    json 400 false
      (Some (u16 "Invalid form data. Please check all fields."))
  else
    let safeEmail := sanitize (fst (booking_email req)) in
    r <- sendMail transporter (booking_mailOptions req) ;;
    match r with
    | Resolved =>
        log (console_log
               [CHECK_MARK ++ u16 " Booking email sent for " ++ safeEmail
                ++ u16 " at " ++ now_toISOString deps]) ;;;
        json 200 true
          (Some (u16 "Booking confirmed! We will be in touch shortly."))
    | Rejected err_message =>
        log (console_error
               [CROSS_MARK ++ u16 " Booking email failed:"; err_message]) ;;;
        json 500 false
          (Some (u16 "Failed to send. Please try again or contact us directly."))
    end.

(** *** POST /api/contact, lines 175-237 *)

Definition contact_name (req : Contact.Form) : value * nat :=
  body [trim_; notEmpty; isLength_ deps 0 (Some 100); escape_]
    (Contact.name req).
Definition contact_email (req : Contact.Form) : value * nat :=
  body [isEmail_ deps; normalizeEmail_ deps] (Contact.email req).
Definition contact_message (req : Contact.Form) : value * nat :=
  body [trim_; notEmpty; isLength_ deps 10 (Some 2000); escape_]
    (Contact.message req).

Definition contact_validationResult (req : Contact.Form) : nat :=
  snd (contact_name req) + snd (contact_email req)
  + snd (contact_message req).

(** [mailOptions], lines 188-226. *)
Definition contact_mailOptions (req : Contact.Form) : Mail :=
  let name := fst (contact_name req) in
  let email := fst (contact_email req) in
  let message := fst (contact_message req) in
  let safeName := sanitize name in
  let safeEmail := sanitize email in
  let safeMessage := sanitize message in
  {| from := sender env;
     to := BUSINESS_EMAIL env;
     replyTo := VString safeEmail;
     subject := contact_subject safeName;
     html := contact_html safeName safeEmail safeMessage |}.

Definition post_api_contact (req : Contact.Form) : M Response :=
  if negb (Nat.eqb (contact_validationResult req) 0) then
    json 400 false
      (Some (u16 "Invalid form data. Please check all fields."))
  else
    let safeEmail := sanitize (fst (contact_email req)) in
    r <- sendMail transporter (contact_mailOptions req) ;;
    match r with
    | Resolved =>
        log (console_log
               [CHECK_MARK ++ u16 " Contact email sent from " ++ safeEmail
                ++ u16 " at " ++ now_toISOString deps]) ;;;
        json 200 true
          (Some (u16 "Message sent! We will get back to you soon."))
    | Rejected err_message =>
        log (console_error
               [CROSS_MARK ++ u16 " Contact email failed:"; err_message]) ;;;
        json 500 false
          (Some (u16 "Failed to send. Please try again or contact us directly."))
    end.

End Routes.

End Part000.

(* ================================================================= *)
(** ** A fragment of the collaborators

    [sample] agrees with validator.js and with an en-US runtime on the
    addresses and the date used in the examples of this file, and on
    nothing else: it lets the handlers run on those inputs.  Its character
    count is the one of validator.js [isLength]. *)

Fixpoint eqs (a b : jsstring) : bool :=
  match a, b with
  | [], [] => true
  | x :: a', y :: b' => N.eqb x y && eqs a' b'
  | _, _ => false
  end.

(** [toLowerCase] on the letters A-Z. *)
Definition lower (c : codeunit) : codeunit :=
  if ((65 <=? c) && (c <=? 90))%N then (c + 32)%N else c.

Definition isHighSurrogate (c : codeunit) : bool :=
  ((0xD800 <=? c) && (c <=? 0xDBFF))%N.
Definition isLowSurrogate (c : codeunit) : bool :=
  ((0xDC00 <=? c) && (c <=? 0xDFFF))%N.

(** The matches of [/[\uD800-\uDBFF][\uDC00-\uDFFF]/g]. *)
Fixpoint surrogatePairs (s : jsstring) : nat :=
  match s with
  | h :: t =>
      match t with
      | l :: t' =>
          if isHighSurrogate h && isLowSurrogate l
          then S (surrogatePairs t') else surrogatePairs t
      | [] => 0
      end
  | [] => 0
  end.

Definition isVariationSelector (c : codeunit) : bool :=
  ((c =? 0xFE0E) || (c =? 0xFE0F))%N.

(** The length validator.js [isLength] compares with [min] and [max]:
    [str.length], less the matches of [/(\uFE0F|\uFE0E)/g], less the
    matches of the surrogate pair pattern. *)
Definition isLength_len (s : jsstring) : nat :=
  length s - length (filter isVariationSelector s) - surrogatePairs s.

(** The library counts as validator.js does. *)
Definition counts_as_validator (deps : Deps) : Prop :=
  forall s : jsstring, charCount deps s = isLength_len s.

Definition sample : Deps :=
  {| isEmail := fun s =>
       existsb (eqs s) [u16 "bob@example.com"; u16 "Bob@Example.COM"];
     normalizeEmail := fun s => VString (map lower s);
     isISO8601 := fun s => eqs s (u16 "2025-03-14");
     toDate := fun s =>
       if eqs s (u16 "2025-03-14") then Some 1741910400000%Z else None;
     charCount := isLength_len;
     toLocaleDateString := fun _ => u16 "3/14/2025";
     toLocaleDateString_enUS := fun _ => u16 "Friday, March 14, 2025";
     now_toISOString := u16 "2025-03-01T12:00:00.000Z" |}.

Definition sample_env : Env :=
  {| SMTP_USER := VString (u16 "website@lwa.example");
     BUSINESS_EMAIL := VString (u16 "office@lwa.example") |}.

(** A transport that delivers, and one that fails to log in. *)
Definition delivers : Mail -> Settled := fun _ => Resolved.
Definition refuses : Mail -> Settled :=
  fun _ => Rejected (u16 "Invalid login: 535 Authentication failed").

(** [s.startsWith(p)] and [s.includes(p)] *)
Fixpoint startsWith (s p : jsstring) : bool :=
  match p, s with
  | [], _ => true
  | x :: p', y :: s' => N.eqb x y && startsWith s' p'
  | _ :: _, [] => false
  end.

Fixpoint includes (s p : jsstring) : bool :=
  startsWith s p || match s with [] => false | _ :: s' => includes s' p end.

(** A string has no leading and no trailing white space. *)
(** Submissions used in the examples. *)
Definition bob_booking : Booking.Form :=
  {| Booking.firstName := VString (u16 "Bob");
     Booking.lastName := VString (u16 "Stone");
     Booking.email := VString (u16 "Bob@Example.COM");
     Booking.date := VString (u16 "2025-03-14");
     Booking.time := VString (u16 "10:30") |}.

Definition long_name_booking : Booking.Form :=
  {| Booking.firstName := VString (repeat 97%N 51);
     Booking.lastName := VString (u16 "Stone");
     Booking.email := VString (u16 "bob@example.com");
     Booking.date := VString (u16 "2025-03-14");
     Booking.time := VString (u16 "10:30") |}.

Definition blank_name_booking : Booking.Form :=
  {| Booking.firstName := VString (u16 "   ");
     Booking.lastName := VString (u16 "Stone");
     Booking.email := VString (u16 "bob@example.com");
     Booking.date := VString (u16 "2025-03-14");
     Booking.time := VString (u16 "10:30") |}.

Definition blank_time_booking : Booking.Form :=
  {| Booking.firstName := VString (u16 "Bob");
     Booking.lastName := VString (u16 "Stone");
     Booking.email := VString (u16 "bob@example.com");
     Booking.date := VString (u16 "2025-03-14");
     Booking.time := VString (u16 "  ") |}.

Definition bob_contact : Contact.Form :=
  {| Contact.name := VString (u16 "<b>Bob</b>");
     Contact.email := VString (u16 "bob@example.com");
     Contact.message := VString (u16 "Hello there, need help") |}.

Definition short_contact : Contact.Form :=
  {| Contact.name := VString (u16 "Bob");
     Contact.email := VString (u16 "bob@example.com");
     Contact.message := VString (u16 "  Hi there  ") |}.

Definition long_contact : Contact.Form :=
  {| Contact.name := VString (u16 "Bob");
     Contact.email := VString (u16 "bob@example.com");
     Contact.message := VString (repeat 97%N 600) |}.

(** A message of 1001 copies of U+1F600: 2002 code units. *)
Definition faces_contact : Contact.Form :=
  {| Contact.name := VString (u16 "Bob");
     Contact.email := VString (u16 "bob@example.com");
     Contact.message :=
       VString (concat (repeat [0xD83D%N; 0xDE00%N] 1001)) |}.

Definition two_line_name : jsstring := u16 "Ann" ++ [LF] ++ u16 "Bcc: all@lwa.example".

Definition two_line_contact : Contact.Form :=
  {| Contact.name := VString two_line_name;
     Contact.email := VString (u16 "bob@example.com");
     Contact.message := VString (u16 "Hello there, need help") |}.

Definition edge_ok (s : jsstring) : bool :=
  match s with [] => true | c :: _ => negb (isWhiteSpace c) end.

Definition trimmed (s : jsstring) : Prop :=
  edge_ok s = true /\ edge_ok (rev s) = true.

(* ================================================================= *)
(** ** Around the handlers: origins, transport settings, errors

    What the files set up before and after the two routes: the [origin]
    function given to the cors middleware, the port and the TLS flag given
    to nodemailer, and the error-handling middleware of the first copy in
    [src/unnamed/part_000]. *)

Definition COMMA : codeunit := 44%N.

(** [s.split(sep)] for a separator of one character: the empty string
    gives one empty piece. *)
Fixpoint split (sep : codeunit) (s : jsstring) : list jsstring :=
  match s with
  | [] => [[]]
  | c :: t =>
      if N.eqb c sep then [] :: split sep t
      else match split sep t with
           | h :: r => (c :: h) :: r
           | [] => [[c]]
           end
  end.

(** [xs.join(sep)] *)
Fixpoint join (sep : codeunit) (xs : list jsstring) : jsstring :=
  match xs with
  | [] => []
  | [x] => x
  | x :: r => x ++ sep :: join sep r
  end.

(** [xs.includes(x)] on an array of strings. *)
Definition array_includes (xs : list jsstring) (x : jsstring) : bool :=
  existsb (eqs x) xs.

(** An environment variable or a request header: absent, or a string. *)
Definition read (o : option jsstring) : value :=
  match o with Some s => VString s | None => VUndefined end.

(** [process.env], for the variables read outside the handlers. *)
Record Settings : Type := {
  ALLOWED_ORIGINS : option jsstring;
  SMTP_PORT : option jsstring
}.

(** What the [origin] function passes to its callback:
    [callback(null, true)] or [callback(new Error(message), false)]. *)
Inductive Verdict : Type :=
| Allow
| Deny (err_message : jsstring).

(** The digit a character stands for in a radix up to 36. *)
Definition digit (radix : N) (c : codeunit) : option N :=
  let d :=
    if ((48 <=? c) && (c <=? 57))%N then Some (c - 48)%N
    else if ((97 <=? c) && (c <=? 122))%N then Some (c - 87)%N
    else if ((65 <=? c) && (c <=? 90))%N then Some (c - 55)%N
    else None in
  match d with
  | Some n => if (n <? radix)%N then Some n else None
  | None => None
  end.

(** The value of the longest prefix of digits, if there is a digit. *)
Fixpoint digits (radix : N) (s : jsstring) (acc : option N) : option N :=
  match s with
  | c :: t =>
      match digit radix c with
      | Some d =>
          digits radix t
            (Some (radix * match acc with Some a => a | None => 0 end + d)%N)
      | None => acc
      end
  | [] => acc
  end.

(** [parseInt(v)] without a radix: leading white space, a sign, [0x] or
    [0X] for radix 16, then digits.  [None] is NaN.  The result is the
    integer read; as a Number it is the same below 2^53, and it is zero
    or not, and 465 or not, as the Number is. *)
Definition parseInt (v : value) : option Z :=
  let s := trimStart (String_ v) in
  let signed :=
    match s with
    | c :: t =>
        if N.eqb c 45 then (true, t)
        else if N.eqb c 43 then (false, t) else (false, s)
    | [] => (false, s)
    end in
  let based :=
    match snd signed with
    | z :: x :: t =>
        if N.eqb z 48 && (N.eqb x 120 || N.eqb x 88) then (16%N, t)
        else (10%N, snd signed)
    | _ => (10%N, snd signed)
    end in
  match digits (fst based) (snd based) None with
  | Some n => Some (if fst signed then (- Z.of_N n)%Z else Z.of_N n)
  | None => None
  end.

(** [n || d] for a number [n]: NaN and zero give [d]. *)
Definition number_or (n : option Z) (d : Z) : Z :=
  match n with
  | Some k => if Z.eqb k 0 then d else k
  | None => d
  end.

(** The four headers of a message, its body left out. *)
Definition headers (m : Mail) : jsstring * value * value * jsstring :=
  (from m, to m, replyTo m, subject m).

(** How often a character occurs in a string. *)
Definition occurrences (c : codeunit) (s : jsstring) : nat :=
  count_occ N.eq_dec s c.

Module ServerJsSetup.

(** The [origin] function, [src/server.js] lines 21-31. *)
Definition cors_origin (st : Settings) (origin : option jsstring) : Verdict :=
  let allowed :=
    map trim
      (split COMMA
         (if truthy (read (ALLOWED_ORIGINS st))
          then String_ (read (ALLOWED_ORIGINS st)) else []))
  in
  if negb (truthy (read origin))
     || array_includes allowed (String_ (read origin))
  then Allow
  else Deny (u16 "CORS").

(** [port] and [secure] of [createTransport], lines 61-62. *)
Definition port (st : Settings) : Z :=
  number_or (parseInt (read (SMTP_PORT st))) 587.

Definition secure (st : Settings) : bool :=
  match SMTP_PORT st with
  | Some s => eqs s (u16 "465")
  | None => false
  end.

End ServerJsSetup.

Module Part000Setup.

(** [allowedOrigins], [src/unnamed/part_000] lines 19-21. *)
Definition allowedOrigins (st : Settings) : list jsstring :=
  if truthy (read (ALLOWED_ORIGINS st))
  then map trim (split COMMA (String_ (read (ALLOWED_ORIGINS st))))
  else [u16 "http://localhost:3000"].

(** The [origin] function, lines 24-31. *)
Definition cors_origin (st : Settings) (origin : option jsstring) : Verdict :=
  if negb (truthy (read origin)) then Allow
  else if array_includes (allowedOrigins st) (String_ (read origin)) then Allow
  else Deny (u16 "CORS policy: origin not allowed").

(** [port] and [secure] of [createTransport], lines 63-64. *)
Definition port (st : Settings) : Z :=
  number_or (parseInt (read (SMTP_PORT st))) 465.

Definition secure (st : Settings) : bool :=
  match SMTP_PORT st with
  | Some s => eqs s (u16 "465")
  | None => false
  end.

(** The error-handling middleware, lines 245-251, given [err.message]. *)
Definition error_handler (err_message : value) : M Response :=
  if truthy err_message && includes (String_ err_message) (u16 "CORS") then
    json 403 false (Some (u16 "Access denied."))
  else
    log (console_error [u16 "Unhandled error:"; String_ err_message]) ;;;
    json 500 false (Some (u16 "Internal server error.")).

End Part000Setup.

(* ================================================================= *)
(** ** [src/unnamed/part_000], second copy (lines 258-347) *)

Module Part000Copy2.

(** Lines 293-296. *)
Definition sanitize (str : value) : jsstring :=
  if negb (truthy str) then []
  else
    substring
      (trim
         (replace_g GT (u16 "&gt;")
            (replace_g LT (u16 "&lt;") (String_ str))))
      0 500.

(** The [origin] function, line 272. *)
Definition cors_origin (st : Settings) (o : option jsstring) : Verdict :=
  if negb (truthy (read o))
     || array_includes
          (map trim
             (split COMMA
                (if truthy (read (ALLOWED_ORIGINS st))
                 then String_ (read (ALLOWED_ORIGINS st)) else [])))
          (String_ (read o))
  then Allow
  else Deny (u16 "CORS").

Definition sender (env : Env) : jsstring :=
  tpl "`LWA Website` <"
    ++ String_ (SMTP_USER env)
    ++ tpl ">".

Definition booking_subject (first last : jsstring) : jsstring :=
  CALENDAR
    ++ tpl " New Booking "
    ++ EM_DASH
    ++ tpl " "
    ++ first
    ++ tpl " "
    ++ last.

Definition booking_html (first last email date time : jsstring) : jsstring :=
  tpl "<div style=`font-family:Arial,sans-serif;padding:30px;background:#f9f9f9`><div style=`background:#080c0a;padding:20px;text-align:center;border-radius:8px 8px 0 0`><h2 style=`color:#00e87a;margin:0`>LWA Leads Group</h2><p style=`color:#7a9484;margin:4px 0 0;font-size:13px`>New Booking Request</p></div><div style=`background:#fff;padding:24px;border:1px solid #e0e0e0;border-top:none;border-radius:0 0 8px 8px`><table style=`width:100%;border-collapse:collapse`><tr><td style=`padding:10px 0;border-bottom:1px solid #f0f0f0;color:#666;width:35%`><strong>Name</strong></td><td style=`padding:10px 0;border-bottom:1px solid #f0f0f0`>"
    ++ first
    ++ tpl " "
    ++ last
    ++ tpl "</td></tr><tr><td style=`padding:10px 0;border-bottom:1px solid #f0f0f0;color:#666`><strong>Email</strong></td><td style=`padding:10px 0;border-bottom:1px solid #f0f0f0`>"
    ++ email
    ++ tpl "</td></tr><tr><td style=`padding:10px 0;border-bottom:1px solid #f0f0f0;color:#666`><strong>Date</strong></td><td style=`padding:10px 0;border-bottom:1px solid #f0f0f0`>"
    ++ date
    ++ tpl "</td></tr><tr><td style=`padding:10px 0;color:#666`><strong>Time</strong></td><td style=`padding:10px 0`>"
    ++ time
    ++ tpl "</td></tr></table><div style=`margin-top:16px;padding:12px;background:#f0fdf4;border-left:3px solid #00e87a`><p style=`margin:0;font-size:13px;color:#444`>"
    ++ LIGHT_BULB
    ++ tpl " Hit <strong>Reply</strong> to respond directly.</p></div></div></div>".

Definition contact_subject (name : jsstring) : jsstring :=
  ENVELOPE
    ++ tpl " New Message from "
    ++ name.

Definition contact_html (name email message : jsstring) : jsstring :=
  tpl "<div style=`font-family:Arial,sans-serif;padding:30px;background:#f9f9f9`><div style=`background:#080c0a;padding:20px;text-align:center;border-radius:8px 8px 0 0`><h2 style=`color:#00e87a;margin:0`>LWA Leads Group</h2><p style=`color:#7a9484;margin:4px 0 0;font-size:13px`>New Contact Message</p></div><div style=`background:#fff;padding:24px;border:1px solid #e0e0e0;border-top:none;border-radius:0 0 8px 8px`><table style=`width:100%;border-collapse:collapse`><tr><td style=`padding:10px 0;border-bottom:1px solid #f0f0f0;color:#666;width:25%`><strong>Name</strong></td><td style=`padding:10px 0;border-bottom:1px solid #f0f0f0`>"
    ++ name
    ++ tpl "</td></tr><tr><td style=`padding:10px 0;border-bottom:1px solid #f0f0f0;color:#666`><strong>Email</strong></td><td style=`padding:10px 0;border-bottom:1px solid #f0f0f0`>"
    ++ email
    ++ tpl "</td></tr></table><div style=`margin-top:16px`><p style=`color:#666;margin-bottom:8px`><strong>Message:</strong></p><div style=`background:#f8f8f8;padding:16px;border-radius:4px;border:1px solid #eee;white-space:pre-wrap`>"
    ++ message
    ++ tpl "</div></div><div style=`margin-top:16px;padding:12px;background:#f0fdf4;border-left:3px solid #00e87a`><p style=`margin:0;font-size:13px;color:#444`>"
    ++ LIGHT_BULB
    ++ tpl " Hit <strong>Reply</strong> to respond directly.</p></div></div></div>".

Section Routes.

Variable deps : Deps.
Variable env : Env.
Variable transporter : Mail -> Settled.

(** *** POST /api/booking, lines 300-319 *)

Definition booking_firstName (req : Booking.Form) : value * nat :=
  body [trim_; notEmpty; escape_] (Booking.firstName req).
Definition booking_lastName (req : Booking.Form) : value * nat :=
  body [trim_; notEmpty; escape_] (Booking.lastName req).
Definition booking_email (req : Booking.Form) : value * nat :=
  body [isEmail_ deps; normalizeEmail_ deps] (Booking.email req).
Definition booking_time (req : Booking.Form) : value * nat :=
  body [notEmpty; trim_; escape_] (Booking.time req).
Definition booking_date (req : Booking.Form) : option Z * nat :=
  (toDate deps (toString (Booking.date req)),
   snd (body [notEmpty; isISO8601_ deps] (Booking.date req))).

Definition booking_validationResult (req : Booking.Form) : nat :=
  snd (booking_firstName req) + snd (booking_lastName req)
  + snd (booking_email req) + snd (booking_date req)
  + snd (booking_time req).

Definition booking_mailOptions (req : Booking.Form) : Mail :=
  let firstName := fst (booking_firstName req) in
  let lastName := fst (booking_lastName req) in
  let email := fst (booking_email req) in
  let date := fst (booking_date req) in
  let time := fst (booking_time req) in
  {| from := sender env;
     to := BUSINESS_EMAIL env;
     replyTo := email;
     subject := booking_subject (sanitize firstName) (sanitize lastName);
     html := booking_html (sanitize firstName) (sanitize lastName)
               (sanitize email)
               (toLocaleDateString_enUS deps (new_Date date))
               (sanitize time) |}.

Definition post_api_booking (req : Booking.Form) : M Response :=
  if negb (Nat.eqb (booking_validationResult req) 0) then
    json 400 false (Some (u16 "Invalid data."))
  else
    r <- sendMail transporter (booking_mailOptions req) ;;
    match r with
    | Resolved => json 200 true None
    | Rejected err_message =>
        log (console_error
               [CROSS_MARK ++ u16 " Booking failed:"; err_message]) ;;;
        json 500 false (Some (u16 "Failed to send."))
    end.

(** *** POST /api/contact, lines 321-340 *)

Definition contact_name (req : Contact.Form) : value * nat :=
  body [trim_; notEmpty; escape_] (Contact.name req).
Definition contact_email (req : Contact.Form) : value * nat :=
  body [isEmail_ deps; normalizeEmail_ deps] (Contact.email req).
Definition contact_message (req : Contact.Form) : value * nat :=
  body [trim_; notEmpty; isLength_ deps 10 (Some 2000); escape_]
    (Contact.message req).

Definition contact_validationResult (req : Contact.Form) : nat :=
  snd (contact_name req) + snd (contact_email req)
  + snd (contact_message req).

Definition contact_mailOptions (req : Contact.Form) : Mail :=
  let name := fst (contact_name req) in
  let email := fst (contact_email req) in
  let message := fst (contact_message req) in
  {| from := sender env;
     to := BUSINESS_EMAIL env;
     replyTo := email;
     subject := contact_subject (sanitize name);
     html := contact_html (sanitize name) (sanitize email)
               (sanitize message) |}.

Definition post_api_contact (req : Contact.Form) : M Response :=
  if negb (Nat.eqb (contact_validationResult req) 0) then
    json 400 false (Some (u16 "Invalid data."))
  else
    r <- sendMail transporter (contact_mailOptions req) ;;
    match r with
    | Resolved => json 200 true None
    | Rejected err_message =>
        log (console_error
               [CROSS_MARK ++ u16 " Contact failed:"; err_message]) ;;;
        json 500 false (Some (u16 "Failed to send."))
    end.

End Routes.

End Part000Copy2.

(** What a handler may do to the world it starts in, and how its answer
    relates to it: it adds at most one message to the outbox and lines to
    the console; it sends nothing exactly when it answers 400; it answers
    [success: true] exactly with status 200, and exactly when the one
    message it sent was accepted by the transport. *)
Definition orderly (transporter : Mail -> Settled) (w : World)
    (r : Response * World) : Prop :=
  exists (sent : list Mail) (logged : list LogLine),
    outbox (snd r) = outbox w ++ sent
    /\ console (snd r) = console w ++ logged
    /\ length sent <= 1
    /\ (sent = [] <-> status (fst r) = 400)
    /\ (success (fst r) = true <-> status (fst r) = 200)
    /\ (success (fst r) = true <->
        exists m : Mail, sent = [m] /\ transporter m = Resolved).

(** A field that is absent from [req.body] or [null]. *)
Definition nullish (v : value) : Prop := v = VUndefined \/ v = VNull.

(** A submission with the outer white space of its text fields removed
    beforehand. *)
Definition pretrimmed_contact (req : Contact.Form) : Contact.Form :=
  {| Contact.name := VString (validator_trim (toString (Contact.name req)));
     Contact.email := Contact.email req;
     Contact.message :=
       VString (validator_trim (toString (Contact.message req))) |}.

Definition pretrimmed_booking (req : Booking.Form) : Booking.Form :=
  {| Booking.firstName :=
       VString (validator_trim (toString (Booking.firstName req)));
     Booking.lastName :=
       VString (validator_trim (toString (Booking.lastName req)));
     Booking.email := Booking.email req;
     Booking.date := Booking.date req;
     Booking.time := Booking.time req |}.

(** Settings used in the examples. *)
Definition site_settings : Settings :=
  {| ALLOWED_ORIGINS :=
       Some (u16 "https://lwa.example, https://www.lwa.example");
     SMTP_PORT := Some (u16 "465") |}.

Definition bare_settings : Settings :=
  {| ALLOWED_ORIGINS := None; SMTP_PORT := None |}.

(* ================================================================= *)
(** ** Facts about the string operations *)

Lemma substring_0 (s : jsstring) (n : nat) : substring s 0 n = firstn n s.
Proof.
  unfold substring. rewrite Nat.max_0_l, Nat.min_0_l, Nat.sub_0_r. reflexivity.
Qed.

Lemma In_firstn (x : codeunit) (n : nat) (s : jsstring) :
  In x (firstn n s) -> In x s.
Proof.
  revert s; induction n as [|n IH]; intros [|c t]; simpl; try tauto.
  intros [->|H]; auto.
Qed.

Lemma In_trimStart (x : codeunit) (s : jsstring) :
  In x (trimStart s) -> In x s.
Proof.
  induction s as [|c t IH]; simpl; auto.
  destruct (isWhiteSpace c); simpl; auto.
Qed.

Lemma In_trim (x : codeunit) (s : jsstring) : In x (trim s) -> In x s.
Proof.
  unfold trim, trimEnd. intros H.
  apply In_trimStart. apply in_rev. apply In_trimStart. apply in_rev. exact H.
Qed.

Lemma In_replace_g (x c : codeunit) (rep s : jsstring) :
  In x (replace_g c rep s) -> (In x s /\ x <> c) \/ In x rep.
Proof.
  unfold replace_g. rewrite in_flat_map. intros (y & Hy & Hx).
  destruct (N.eqb_spec y c) as [->|Hne].
  - right; exact Hx.
  - simpl in Hx. destruct Hx as [<-|[]]. left; auto.
Qed.

Lemma replace_g_absent (c : codeunit) (rep s : jsstring) :
  ~ In c s -> replace_g c rep s = s.
Proof.
  unfold replace_g. induction s as [|y t IH]; simpl; intros H; auto.
  destruct (N.eqb_spec y c) as [->|Hne].
  - exfalso; apply H; auto.
  - simpl. f_equal. apply IH. tauto.
Qed.

(** Closes a goal [In c (u16 "...") -> False] for a concrete [c]. *)
Ltac not_in_literal H :=
  simpl in H; repeat (destruct H as [H|H]; [discriminate H|]); exact H.

(** Peels the replacements off a hypothesis [H : In c (replace_g ...)]
    for a concrete character [c]. *)
Ltac peel H :=
  repeat (apply In_replace_g in H;
          destruct H as [[H ?]|H]; [|solve [not_in_literal H]]).

Lemma firstn_cuts (s : jsstring) (n : nat) :
  n < length s -> exists rest, s = firstn n s ++ rest /\ rest <> [].
Proof.
  intros H. exists (skipn n s). split.
  - symmetry. apply firstn_skipn.
  - intros E. apply (f_equal (@length codeunit)) in E.
    rewrite length_skipn in E. simpl in E. lia.
Qed.

(* ================================================================= *)
(** ** Trimmed strings *)

Lemma edge_ok_app (a b : jsstring) : a <> [] -> edge_ok (a ++ b) = edge_ok a.
Proof. destruct a; [congruence | reflexivity]. Qed.

Lemma trimStart_edge (s : jsstring) : edge_ok (trimStart s) = true.
Proof.
  induction s as [|c t IH]; simpl; auto.
  destruct (isWhiteSpace c) eqn:E; auto. simpl. now rewrite E.
Qed.

Lemma trimStart_split (s : jsstring) : exists p, s = p ++ trimStart s.
Proof.
  induction s as [|c t [p IH]]; simpl.
  - exists []. reflexivity.
  - destruct (isWhiteSpace c).
    + exists (c :: p). simpl. now rewrite <- IH.
    + exists []. reflexivity.
Qed.

Lemma trimStart_fixed (s : jsstring) : edge_ok s = true -> trimStart s = s.
Proof.
  destruct s as [|c t]; simpl; auto.
  destruct (isWhiteSpace c); [discriminate | reflexivity].
Qed.

Lemma trim_trimmed (s : jsstring) : trimmed (trim s).
Proof.
  unfold trimmed, trim, trimEnd. set (u := trimStart s).
  split.
  - destruct (trimStart_split (rev u)) as [p Hp].
    assert (Hu : u = rev (trimStart (rev u)) ++ rev p).
    { rewrite <- rev_app_distr, <- Hp, rev_involutive. reflexivity. }
    destruct (rev (trimStart (rev u))) as [|x r] eqn:E; [reflexivity|].
    rewrite <- (edge_ok_app (x :: r) (rev p)) by discriminate.
    rewrite <- Hu. apply trimStart_edge.
  - rewrite rev_involutive. apply trimStart_edge.
Qed.

Lemma trimmed_trim (s : jsstring) : trimmed s -> trim s = s.
Proof.
  intros [H1 H2]. unfold trim, trimEnd.
  rewrite (trimStart_fixed s H1), (trimStart_fixed (rev s) H2).
  apply rev_involutive.
Qed.

Lemma replace_g_trimmed (c : codeunit) (rep s : jsstring) :
  rep <> [] -> trimmed rep -> trimmed s -> trimmed (replace_g c rep s).
Proof.
  intros Hne [R1 R2] [S1 S2]. split.
  - destruct s as [|x t]; [reflexivity|].
    unfold replace_g. simpl flat_map. destruct (N.eqb x c).
    + rewrite edge_ok_app by assumption. exact R1.
    + exact S1.
  - destruct (rev s) as [|y u] eqn:E.
    + apply (f_equal (@rev codeunit)) in E. rewrite rev_involutive in E.
      subst s. reflexivity.
    + apply (f_equal (@rev codeunit)) in E. rewrite rev_involutive in E.
      subst s. simpl rev. unfold replace_g. rewrite flat_map_app.
      simpl flat_map. rewrite app_nil_r, rev_app_distr.
      destruct (N.eqb y c).
      * rewrite edge_ok_app; [exact R2|].
        intros H. apply (f_equal (@rev codeunit)) in H.
        rewrite rev_involutive in H. now apply Hne.
      * exact S2.
Qed.

Lemma validator_trim_trimmed (s : jsstring) : trimmed (validator_trim s).
Proof. exact (trim_trimmed s). Qed.

Lemma escape_trimmed (s : jsstring) : trimmed s -> trimmed (escape s).
Proof.
  intros H. unfold escape.
  repeat (apply replace_g_trimmed;
          [discriminate | split; reflexivity | ]).
  exact H.
Qed.

Lemma escape_clean (s : jsstring) :
  ~ In LT (escape s) /\ ~ In GT (escape s)
  /\ ~ In DQUOTE (escape s) /\ ~ In SQUOTE (escape s).
Proof.
  unfold escape.
  repeat split; intros H; peel H;
    repeat match goal with E : ?a <> ?a |- _ => now apply E end.
Qed.

(* ================================================================= *)
(** ** [sanitize] unfolded *)

Lemma sanitize_server_unfold (v : value) :
  truthy v = true ->
  ServerJs.sanitize v =
  firstn 500 (trim (replace_g GT (u16 "&gt;")
                      (replace_g LT (u16 "&lt;") (String_ v)))).
Proof.
  intros H. unfold ServerJs.sanitize. rewrite H. simpl negb. cbv iota.
  apply substring_0.
Qed.

Lemma sanitize_part_unfold (v : value) :
  truthy v = true ->
  Part000.sanitize v =
  firstn 500
    (trim (replace_g SQUOTE (u16 "&#x27;")
             (replace_g DQUOTE (u16 "&quot;")
                (replace_g GT (u16 "&gt;")
                   (replace_g LT (u16 "&lt;") (String_ v)))))).
Proof.
  intros H. unfold Part000.sanitize. rewrite H. simpl negb. cbv iota.
  apply substring_0.
Qed.

Lemma sanitize_falsy (v : value) :
  truthy v = false -> ServerJs.sanitize v = [] /\ Part000.sanitize v = [].
Proof.
  intros H. unfold ServerJs.sanitize, Part000.sanitize. rewrite H. auto.
Qed.

(** A field that went through [trim] and [escape] is cut at 500 code
    units by [sanitize] and not changed otherwise. *)
Lemma sanitize_of_escaped (t : jsstring) :
  trimmed t ->
  ServerJs.sanitize (VString (escape t)) = firstn 500 (escape t)
  /\ Part000.sanitize (VString (escape t)) = firstn 500 (escape t).
Proof.
  intros Ht.
  destruct (escape_clean t) as (Hlt & Hgt & Hdq & Hsq).
  pose proof (escape_trimmed t Ht) as Htr.
  destruct (truthy (VString (escape t))) eqn:T.
  - rewrite (sanitize_server_unfold _ T), (sanitize_part_unfold _ T).
    cbn [String_].
    rewrite (replace_g_absent LT _ _ Hlt), (replace_g_absent GT _ _ Hgt),
      (replace_g_absent DQUOTE _ _ Hdq), (replace_g_absent SQUOTE _ _ Hsq).
    rewrite (trimmed_trim _ Htr). auto.
  - destruct (sanitize_falsy _ T) as [-> ->].
    simpl in T. destruct (escape t); [auto | discriminate].
Qed.

(* ================================================================= *)
(** ** The operations on small inputs *)

Example trim_strips_unicode_space :
  trim ([0xFEFF%N; 0x3000%N] ++ u16 " a b" ++ [0x2028%N; CR; LF]) = u16 "a b".
Proof. reflexivity. Qed.

Example escape_markup :
  escape (u16 "<b>Bob</b> & 'co'") =
  u16 "&lt;b&gt;Bob&lt;&#x2F;b&gt; &amp; &#x27;co&#x27;".
Proof. reflexivity. Qed.

Example sanitize_markup :
  ServerJs.sanitize (VString (u16 "  <b>Bob's</b> ")) = u16 "&lt;b&gt;Bob's&lt;/b&gt;"
  /\ Part000.sanitize (VString (u16 "  <b>Bob's</b> "))
     = u16 "&lt;b&gt;Bob&#x27;s&lt;/b&gt;".
Proof. split; reflexivity. Qed.

Example sanitize_falsy_values :
  ServerJs.sanitize VUndefined = [] /\ ServerJs.sanitize VNull = []
  /\ ServerJs.sanitize (VString []) = [] /\ ServerJs.sanitize (VBool false) = []
  /\ ServerJs.sanitize (VBool true) = u16 "true".
Proof. repeat split; reflexivity. Qed.

Example chain_on_absent_field :
  body [trim_; notEmpty; escape_] VUndefined = (VString [], 1).
Proof. reflexivity. Qed.

(* ================================================================= *)
(** ** The validation chains *)

Lemma isLength_false (deps : Deps) (min max : nat) (s : jsstring) :
  charCount deps s < min \/ max < charCount deps s ->
  isLength deps min (Some max) s = false.
Proof.
  unfold isLength. intros [H|H].
  - apply andb_false_intro1. apply Nat.leb_gt. exact H.
  - apply andb_false_intro2. apply Nat.leb_gt. exact H.
Qed.

Lemma isLength_true (deps : Deps) (min max : nat) (s : jsstring) :
  min <= charCount deps s <= max -> isLength deps min (Some max) s = true.
Proof.
  unfold isLength. intros [H1 H2].
  apply andb_true_intro. split; apply Nat.leb_le; assumption.
Qed.

Lemma notEmpty_false (s : jsstring) : s = [] -> negb (isEmpty s) = false.
Proof. intros ->. reflexivity. Qed.

Lemma text_chain (v : value) :
  body [trim_; notEmpty; escape_] v
  = let t := validator_trim (toString v) in
    (VString (escape t), (if negb (isEmpty t) then 0 else 1) + 0).
Proof. reflexivity. Qed.

Lemma bounded_text_chain (deps : Deps) (max : nat) (v : value) :
  body [trim_; notEmpty; isLength_ deps 0 (Some max); escape_] v
  = let t := validator_trim (toString v) in
    (VString (escape t),
     (if negb (isEmpty t) then 0 else 1)
     + ((if isLength deps 0 (Some max) t then 0 else 1) + 0)).
Proof. reflexivity. Qed.

Lemma time_chain (v : value) :
  body [notEmpty; trim_; escape_] v
  = (VString (escape (validator_trim (toString v))),
     (if negb (isEmpty (toString v)) then 0 else 1) + 0).
Proof. reflexivity. Qed.

(** In the chain of [time], [notEmpty] comes before [trim]: it sees the
    field as submitted. *)
Lemma bounded_time_chain (deps : Deps) (v : value) :
  body [notEmpty; trim_; isLength_ deps 0 (Some 20); escape_] v
  = let t := validator_trim (toString v) in
    (VString (escape t),
     (if negb (isEmpty (toString v)) then 0 else 1)
     + ((if isLength deps 0 (Some 20) t then 0 else 1) + 0)).
Proof. reflexivity. Qed.

(** The message chain is the same in both files: the length is taken
    after trimming and before escaping. *)
Lemma message_chain (deps : Deps) (v : value) :
  body [trim_; notEmpty; isLength_ deps 10 (Some 2000); escape_] v
  = let t := validator_trim (toString v) in
    (VString (escape t),
     (if negb (isEmpty t) then 0 else 1)
     + ((if isLength deps 10 (Some 2000) t then 0 else 1) + 0)).
Proof. reflexivity. Qed.

Lemma email_chain (deps : Deps) (v : value) :
  body [isEmail_ deps; normalizeEmail_ deps] v
  = (normalizeEmail deps (toString v),
     (if isEmail deps (toString v) then 0 else 1) + 0).
Proof. reflexivity. Qed.

(** When the chains of a route record no error: the field conditions,
    written out for each route of each file. *)
Ltac by_cases_on_checks :=
  cbv zeta; cbn [snd fst];
  repeat match goal with
         | |- context [if ?b then _ else _] => destruct b
         end;
  cbn [andb]; split; intros H; try reflexivity; try discriminate H; try lia.

Lemma server_booking_valid (deps : Deps) (req : Booking.Form) :
  ServerJs.booking_validationResult deps req = 0 <->
  negb (isEmpty (validator_trim (toString (Booking.firstName req))))
  && negb (isEmpty (validator_trim (toString (Booking.lastName req))))
  && isEmail deps (toString (Booking.email req))
  && negb (isEmpty (toString (Booking.date req)))
  && isISO8601 deps (toString (Booking.date req))
  && negb (isEmpty (toString (Booking.time req))) = true.
Proof.
  unfold ServerJs.booking_validationResult, ServerJs.booking_firstName,
    ServerJs.booking_lastName, ServerJs.booking_email, ServerJs.booking_date,
    ServerJs.booking_time.
  rewrite !text_chain, email_chain, time_chain.
  cbn [body isISO8601_ notEmpty]. by_cases_on_checks.
Qed.

Lemma part_booking_valid (deps : Deps) (req : Booking.Form) :
  Part000.booking_validationResult deps req = 0 <->
  negb (isEmpty (validator_trim (toString (Booking.firstName req))))
  && isLength deps 0 (Some 50)
       (validator_trim (toString (Booking.firstName req)))
  && negb (isEmpty (validator_trim (toString (Booking.lastName req))))
  && isLength deps 0 (Some 50)
       (validator_trim (toString (Booking.lastName req)))
  && isEmail deps (toString (Booking.email req))
  && negb (isEmpty (toString (Booking.date req)))
  && isISO8601 deps (toString (Booking.date req))
  && negb (isEmpty (toString (Booking.time req)))
  && isLength deps 0 (Some 20) (validator_trim (toString (Booking.time req)))
  = true.
Proof.
  unfold Part000.booking_validationResult, Part000.booking_firstName,
    Part000.booking_lastName, Part000.booking_email, Part000.booking_date,
    Part000.booking_time.
  rewrite !bounded_text_chain, email_chain, bounded_time_chain.
  cbn [body isISO8601_ notEmpty]. by_cases_on_checks.
Qed.

Lemma server_contact_valid (deps : Deps) (req : Contact.Form) :
  ServerJs.contact_validationResult deps req = 0 <->
  negb (isEmpty (validator_trim (toString (Contact.name req))))
  && isEmail deps (toString (Contact.email req))
  && negb (isEmpty (validator_trim (toString (Contact.message req))))
  && isLength deps 10 (Some 2000)
       (validator_trim (toString (Contact.message req))) = true.
Proof.
  unfold ServerJs.contact_validationResult, ServerJs.contact_name,
    ServerJs.contact_email, ServerJs.contact_message.
  rewrite text_chain, email_chain, message_chain. by_cases_on_checks.
Qed.

Lemma part_contact_valid (deps : Deps) (req : Contact.Form) :
  Part000.contact_validationResult deps req = 0 <->
  negb (isEmpty (validator_trim (toString (Contact.name req))))
  && isLength deps 0 (Some 100) (validator_trim (toString (Contact.name req)))
  && isEmail deps (toString (Contact.email req))
  && negb (isEmpty (validator_trim (toString (Contact.message req))))
  && isLength deps 10 (Some 2000)
       (validator_trim (toString (Contact.message req))) = true.
Proof.
  unfold Part000.contact_validationResult, Part000.contact_name,
    Part000.contact_email, Part000.contact_message.
  rewrite bounded_text_chain, email_chain, message_chain. by_cases_on_checks.
Qed.

Lemma plain_literal (s : jsstring) :
  forallb (fun c => (c <? 0xD800)%N) s = true ->
  Forall (fun c => (c < 0xD800)%N) s.
Proof.
  intros H. apply Forall_forall. intros c Hc.
  rewrite forallb_forall in H. apply N.ltb_lt. now apply H.
Qed.

Lemma isLength_len_le (s : jsstring) : isLength_len s <= length s.
Proof. unfold isLength_len. lia. Qed.

Lemma isLength_len_plain (s : jsstring) :
  Forall (fun c => (c < 0xD800)%N) s -> isLength_len s = length s.
Proof.
  intros H. unfold isLength_len.
  assert (E : surrogatePairs s = 0).
  { induction H as [|h t Hh Ht IH]; [reflexivity|].
    destruct t as [|l t']; [reflexivity|].
    cbn [surrogatePairs]. cbn [surrogatePairs] in IH.
    replace (isHighSurrogate h) with false; [exact IH|].
    unfold isHighSurrogate. symmetry. apply andb_false_intro1.
    apply N.leb_gt. exact Hh. }
  assert (F : filter isVariationSelector s = []).
  { clear E. induction H as [|h t Hh Ht IH]; [reflexivity|].
    cbn [filter]. rewrite IH.
    replace (isVariationSelector h) with false; [reflexivity|].
    unfold isVariationSelector. symmetry. apply orb_false_intro;
      apply N.eqb_neq; intros ->; vm_compute in Hh; discriminate Hh. }
  rewrite E, F. simpl. lia.
Qed.

Lemma sample_counts_plain_text : counts_plain_text sample.
Proof. intros s H. exact (isLength_len_plain s H). Qed.

Lemma sample_counts_as_validator : counts_as_validator sample.
Proof. intros s. reflexivity. Qed.

Lemma isLength_as_validator (deps : Deps) (min max : nat) (s : jsstring) :
  counts_as_validator deps ->
  isLength deps min (Some max) s
  = Nat.leb min (isLength_len s) && Nat.leb (isLength_len s) max.
Proof. intros H. unfold isLength. now rewrite H. Qed.

Lemma isLength_upto (deps : Deps) (max : nat) (s : jsstring) :
  counts_as_validator deps ->
  isLength deps 0 (Some max) s = Nat.leb (isLength_len s) max.
Proof. intros H. now rewrite (isLength_as_validator deps 0 max s H). Qed.

(* ================================================================= *)
(** ** What a handler returns and leaves behind

    Each handler ends in one of three ways: the chains recorded an error
    and nothing is sent; the message is handed over and delivered; the
    message is handed over and the transport fails. *)

Ltac run_handler H :=
  cbv beta delta [ServerJs.post_api_booking ServerJs.post_api_contact
                  Part000.post_api_booking Part000.post_api_contact];
  rewrite H; cbv beta iota zeta delta [negb bind sendMail json ret log];
  try reflexivity.

Section HandlerRuns.

Variable deps : Deps.
Variable env : Env.
Variable transporter : Mail -> Settled.
Variable w : World.

Lemma server_booking_rejected (req : Booking.Form) :
  ServerJs.booking_validationResult deps req <> 0 ->
  ServerJs.post_api_booking deps env transporter req w
  = (respond 400 false (Some (u16 "Invalid data.")), w).
Proof. intros H. apply Nat.eqb_neq in H. run_handler H. Qed.

Lemma server_booking_settled (req : Booking.Form) :
  ServerJs.booking_validationResult deps req = 0 ->
  ServerJs.post_api_booking deps env transporter req w
  = let m := ServerJs.booking_mailOptions deps env req in
    match transporter m with
    | Resolved =>
        (respond 200 true None,
         {| outbox := outbox w ++ [m]; console := console w |})
    | Rejected err =>
        (respond 500 false (Some (u16 "Failed to send.")),
         {| outbox := outbox w ++ [m];
            console := console w
              ++ [console_error [CROSS_MARK ++ u16 " Booking failed:"; err]] |})
    end.
Proof.
  intros H. apply Nat.eqb_eq in H. run_handler H.
  destruct (transporter _); reflexivity.
Qed.

Lemma server_contact_rejected (req : Contact.Form) :
  ServerJs.contact_validationResult deps req <> 0 ->
  ServerJs.post_api_contact deps env transporter req w
  = (respond 400 false (Some (u16 "Invalid data.")), w).
Proof. intros H. apply Nat.eqb_neq in H. run_handler H. Qed.

Lemma server_contact_settled (req : Contact.Form) :
  ServerJs.contact_validationResult deps req = 0 ->
  ServerJs.post_api_contact deps env transporter req w
  = let m := ServerJs.contact_mailOptions deps env req in
    match transporter m with
    | Resolved =>
        (respond 200 true None,
         {| outbox := outbox w ++ [m]; console := console w |})
    | Rejected err =>
        (respond 500 false (Some (u16 "Failed to send.")),
         {| outbox := outbox w ++ [m];
            console := console w
              ++ [console_error [CROSS_MARK ++ u16 " Contact failed:"; err]] |})
    end.
Proof.
  intros H. apply Nat.eqb_eq in H. run_handler H.
  destruct (transporter _); reflexivity.
Qed.

Lemma part_booking_rejected (req : Booking.Form) :
  Part000.booking_validationResult deps req <> 0 ->
  Part000.post_api_booking deps env transporter req w
  = (respond 400 false
       (Some (u16 "Invalid form data. Please check all fields.")), w).
Proof. intros H. apply Nat.eqb_neq in H. run_handler H. Qed.

Lemma part_booking_settled (req : Booking.Form) :
  Part000.booking_validationResult deps req = 0 ->
  Part000.post_api_booking deps env transporter req w
  = let m := Part000.booking_mailOptions deps env req in
    match transporter m with
    | Resolved =>
        (respond 200 true
           (Some (u16 "Booking confirmed! We will be in touch shortly.")),
         {| outbox := outbox w ++ [m];
            console := console w
              ++ [console_log
                    [CHECK_MARK ++ u16 " Booking email sent for "
                     ++ Part000.sanitize (fst (Part000.booking_email deps req))
                     ++ u16 " at " ++ now_toISOString deps]] |})
    | Rejected err =>
        (respond 500 false
           (Some (u16 "Failed to send. Please try again or contact us directly.")),
         {| outbox := outbox w ++ [m];
            console := console w
              ++ [console_error
                    [CROSS_MARK ++ u16 " Booking email failed:"; err]] |})
    end.
Proof.
  intros H. apply Nat.eqb_eq in H. run_handler H.
  destruct (transporter _); reflexivity.
Qed.

Lemma part_contact_rejected (req : Contact.Form) :
  Part000.contact_validationResult deps req <> 0 ->
  Part000.post_api_contact deps env transporter req w
  = (respond 400 false
       (Some (u16 "Invalid form data. Please check all fields.")), w).
Proof. intros H. apply Nat.eqb_neq in H. run_handler H. Qed.

Lemma part_contact_settled (req : Contact.Form) :
  Part000.contact_validationResult deps req = 0 ->
  Part000.post_api_contact deps env transporter req w
  = let m := Part000.contact_mailOptions deps env req in
    match transporter m with
    | Resolved =>
        (respond 200 true
           (Some (u16 "Message sent! We will get back to you soon.")),
         {| outbox := outbox w ++ [m];
            console := console w
              ++ [console_log
                    [CHECK_MARK ++ u16 " Contact email sent from "
                     ++ Part000.sanitize (fst (Part000.contact_email deps req))
                     ++ u16 " at " ++ now_toISOString deps]] |})
    | Rejected err =>
        (respond 500 false
           (Some (u16 "Failed to send. Please try again or contact us directly.")),
         {| outbox := outbox w ++ [m];
            console := console w
              ++ [console_error
                    [CROSS_MARK ++ u16 " Contact email failed:"; err]] |})
    end.
Proof.
  intros H. apply Nat.eqb_eq in H. run_handler H.
  destruct (transporter _); reflexivity.
Qed.

End HandlerRuns.

(* ================================================================= *)
(** ** The sanitizer *)

(** C1.  [sanitize] is a total function, and whatever value it is given
    (the empty string, [null], [undefined], a boolean, a string of any
    length) its result has at most 500 code units and holds neither [<]
    nor [>].  This holds for the helper of [src/server.js] and for the
    one of [src/unnamed/part_000]. *)
Theorem sanitize_postcondition (v : value) :
  (length (ServerJs.sanitize v) <= 500
   /\ ~ In LT (ServerJs.sanitize v) /\ ~ In GT (ServerJs.sanitize v))
  /\ (length (Part000.sanitize v) <= 500
      /\ ~ In LT (Part000.sanitize v) /\ ~ In GT (Part000.sanitize v)).
Proof.
  destruct (truthy v) eqn:T.
  - rewrite (sanitize_server_unfold v T), (sanitize_part_unfold v T).
    repeat split; try apply firstn_le_length;
      intros H; apply In_firstn, In_trim in H; peel H;
      match goal with E : _ <> _ |- _ => try (now apply E) end;
      repeat match goal with E : ?a <> ?a |- _ => now apply E end.
  - destruct (sanitize_falsy v T) as [-> ->]. simpl. repeat split; auto; lia.
Qed.

(** C7.  [sanitize] is not idempotent.  The input is 499 letters, a space
    and one more letter: escaping and trimming leave it as it is, the cut
    at 500 code units leaves the space at the end, and a second pass trims
    that space away. *)
Theorem sanitize_not_idempotent :
  exists x : value,
    ServerJs.sanitize (VString (ServerJs.sanitize x)) <> ServerJs.sanitize x
    /\ ServerJs.sanitize x = firstn 500 (String_ x)
    /\ length (String_ x) = 501.
Proof.
  exists (VString (repeat 97%N 499 ++ u16 " b")).
  split; [|split].
  - intros H. apply (f_equal (@length codeunit)) in H.
    vm_compute in H. discriminate H.
  - vm_compute. reflexivity.
  - vm_compute. reflexivity.
Qed.

(** A cut that falls inside an entity leaves a broken entity at the end,
    and a second pass keeps it as it is. *)
Remark sanitize_cut_inside_entity :
  ServerJs.sanitize (VString (repeat 97%N 498 ++ [LT]))
  = repeat 97%N 498 ++ u16 "&l"
  /\ ServerJs.sanitize
       (VString (ServerJs.sanitize (VString (repeat 97%N 498 ++ [LT]))))
     = ServerJs.sanitize (VString (repeat 97%N 498 ++ [LT])).
Proof. split; vm_compute; reflexivity. Qed.

(** C8, as stated, fails: on a double quote the helper of [src/server.js]
    returns the quote and the helper of [src/unnamed/part_000] returns
    its entity. *)
Lemma sanitize_copies_differ :
  ServerJs.sanitize (VString [DQUOTE]) = [DQUOTE]
  /\ Part000.sanitize (VString [DQUOTE]) = u16 "&quot;"
  /\ ServerJs.sanitize (VString [DQUOTE]) <> Part000.sanitize (VString [DQUOTE]).
Proof.
  split; [|split]; try (vm_compute; reflexivity).
  vm_compute. discriminate.
Qed.

(** C8, amended.  The two helpers return the same string on every input
    whose string form holds neither a double quote nor an apostrophe. *)
Theorem sanitize_copies_agree_without_quotes (v : value) :
  ~ In DQUOTE (String_ v) ->
  ~ In SQUOTE (String_ v) ->
  ServerJs.sanitize v = Part000.sanitize v.
Proof.
  intros Hd Hs. destruct (truthy v) eqn:T.
  - rewrite (sanitize_server_unfold v T), (sanitize_part_unfold v T).
    rewrite (replace_g_absent DQUOTE).
    + rewrite (replace_g_absent SQUOTE); [reflexivity|].
      intros H. peel H. now apply Hs.
    + intros H. peel H. now apply Hd.
  - destruct (sanitize_falsy v T) as [-> ->]. reflexivity.
Qed.

Lemma sanitize_copies_agree_witness :
  ServerJs.sanitize (VString (u16 "<b>Bob</b>"))
  = Part000.sanitize (VString (u16 "<b>Bob</b>")).
Proof.
  apply sanitize_copies_agree_without_quotes;
    intros H; not_in_literal H.
Defined.

(* ================================================================= *)
(** ** POST /api/booking *)

(** C2, as stated, fails.  The address [Bob@Example.COM] passes [isEmail];
    [normalizeEmail] rewrites it in [req.body] to [bob@example.com], and
    that string, not the submitted one, is the reply-to address of the
    message. *)
Lemma booking_replyTo_differs :
  ServerJs.booking_validationResult sample bob_booking = 0
  /\ (exists m : Mail,
        ServerJs.post_api_booking sample sample_env delivers bob_booking start
        = (respond 200 true None, {| outbox := [m]; console := [] |})
        /\ replyTo m = VString (u16 "bob@example.com")
        /\ replyTo m <> Booking.email bob_booking).
Proof.
  split; [vm_compute; reflexivity|].
  eexists. split; [vm_compute; reflexivity|].
  split; [vm_compute; reflexivity|].
  vm_compute. discriminate.
Qed.

(** C2, amended.  For every booking submission that passes the validation
    chains, when the transport reports success the handler answers with
    [success: true] and hands exactly one message to the transport.  Its
    reply-to address is the submitted address as rewritten by
    [normalizeEmail] in [src/server.js], and the sanitized form of that
    rewritten address in [src/unnamed/part_000]. *)
Theorem booking_valid_sends_one_mail
    (deps : Deps) (env : Env) (transporter : Mail -> Settled)
    (req : Booking.Form) (w : World) :
  (ServerJs.booking_validationResult deps req = 0 ->
   transporter (ServerJs.booking_mailOptions deps env req) = Resolved ->
   exists m : Mail,
     fst (ServerJs.post_api_booking deps env transporter req w)
     = respond 200 true None
     /\ outbox (snd (ServerJs.post_api_booking deps env transporter req w))
        = outbox w ++ [m]
     /\ replyTo m = normalizeEmail deps (toString (Booking.email req))
     /\ status (fst (ServerJs.post_api_booking deps env transporter req w))
        = 200
     /\ success (fst (ServerJs.post_api_booking deps env transporter req w))
        = true)
  /\
  (Part000.booking_validationResult deps req = 0 ->
   transporter (Part000.booking_mailOptions deps env req) = Resolved ->
   exists m : Mail,
     fst (Part000.post_api_booking deps env transporter req w)
     = respond 200 true
         (Some (u16 "Booking confirmed! We will be in touch shortly."))
     /\ outbox (snd (Part000.post_api_booking deps env transporter req w))
        = outbox w ++ [m]
     /\ replyTo m
        = VString (Part000.sanitize
                     (normalizeEmail deps (toString (Booking.email req))))
     /\ status (fst (Part000.post_api_booking deps env transporter req w))
        = 200
     /\ success (fst (Part000.post_api_booking deps env transporter req w))
        = true).
Proof.
  split; intros Hv Ht.
  - exists (ServerJs.booking_mailOptions deps env req).
    rewrite (server_booking_settled deps env transporter w req Hv).
    cbv zeta. rewrite Ht. repeat split.
  - exists (Part000.booking_mailOptions deps env req).
    rewrite (part_booking_settled deps env transporter w req Hv).
    cbv zeta. rewrite Ht. repeat split.
Qed.

Lemma booking_valid_sends_one_mail_witness :
  (exists m : Mail,
     fst (ServerJs.post_api_booking sample sample_env delivers bob_booking start)
     = respond 200 true None
     /\ outbox (snd (ServerJs.post_api_booking sample sample_env delivers
                       bob_booking start))
        = outbox start ++ [m]
     /\ replyTo m
        = normalizeEmail sample (toString (Booking.email bob_booking))
     /\ status (fst (ServerJs.post_api_booking sample sample_env delivers
                       bob_booking start)) = 200
     /\ success (fst (ServerJs.post_api_booking sample sample_env delivers
                        bob_booking start)) = true)
  /\ (exists m : Mail,
        fst (Part000.post_api_booking sample sample_env delivers bob_booking start)
        = respond 200 true
            (Some (u16 "Booking confirmed! We will be in touch shortly."))
        /\ outbox (snd (Part000.post_api_booking sample sample_env delivers
                          bob_booking start))
           = outbox start ++ [m]
        /\ replyTo m
           = VString (Part000.sanitize
                        (normalizeEmail sample
                           (toString (Booking.email bob_booking))))
        /\ status (fst (Part000.post_api_booking sample sample_env delivers
                          bob_booking start)) = 200
        /\ success (fst (Part000.post_api_booking sample sample_env delivers
                           bob_booking start)) = true).
Proof.
  destruct (booking_valid_sends_one_mail sample sample_env delivers
              bob_booking start) as [HS HP].
  split; [apply HS | apply HP]; vm_compute; reflexivity.
Defined.

(** C4, as stated, fails.  [src/server.js] puts no length bound on the
    booking fields: a first name of 51 letters passes its chains and the
    message is sent. *)
Lemma server_booking_accepts_long_name :
  charCount sample
    (validator_trim (toString (Booking.firstName long_name_booking))) = 51
  /\ ServerJs.post_api_booking sample sample_env delivers long_name_booking start
     = (respond 200 true None,
        {| outbox := [ServerJs.booking_mailOptions sample sample_env
                        long_name_booking];
           console := [] |}).
Proof.
  split.
  - vm_compute. reflexivity.
  - vm_compute. reflexivity.
Qed.

(** C4, amended.  For a booking submission whose fields are not arrays:
    in [src/unnamed/part_000] it is answered with the 400 invalid-data
    response, and nothing is handed to the transport, whenever the trimmed
    first name or the trimmed last name counts more than 50 characters, or
    the trimmed time counts more than 20, as [isLength] counts them, or
    the first name or the last name is empty after trimming, or the time
    is empty as submitted.  [src/server.js] does so for the three
    emptiness conditions; it has no length bounds. *)
Theorem booking_bounds_rejected
    (deps : Deps) (env : Env) (transporter : Mail -> Settled)
    (req : Booking.Form) (w : World) :
  (counts_as_validator deps ->
   50 < isLength_len (validator_trim (toString (Booking.firstName req)))
   \/ 50 < isLength_len (validator_trim (toString (Booking.lastName req)))
   \/ 20 < isLength_len (validator_trim (toString (Booking.time req)))
   \/ validator_trim (toString (Booking.firstName req)) = []
   \/ validator_trim (toString (Booking.lastName req)) = []
   \/ toString (Booking.time req) = [] ->
   status (fst (Part000.post_api_booking deps env transporter req w)) = 400
   /\ success (fst (Part000.post_api_booking deps env transporter req w))
      = false
   /\ message (fst (Part000.post_api_booking deps env transporter req w))
      = Some (u16 "Invalid form data. Please check all fields.")
   /\ snd (Part000.post_api_booking deps env transporter req w) = w)
  /\
  (validator_trim (toString (Booking.firstName req)) = []
   \/ validator_trim (toString (Booking.lastName req)) = []
   \/ toString (Booking.time req) = [] ->
   status (fst (ServerJs.post_api_booking deps env transporter req w)) = 400
   /\ success (fst (ServerJs.post_api_booking deps env transporter req w))
      = false
   /\ message (fst (ServerJs.post_api_booking deps env transporter req w))
      = Some (u16 "Invalid data.")
   /\ snd (ServerJs.post_api_booking deps env transporter req w) = w).
Proof.
  split.
  - intros Hc H.
    assert (E : Part000.booking_validationResult deps req <> 0).
    { unfold Part000.booking_validationResult, Part000.booking_firstName,
        Part000.booking_lastName, Part000.booking_time.
      rewrite !bounded_text_chain, bounded_time_chain. cbv zeta. cbn [snd].
      rewrite <- !(Hc _) in H.
      destruct H as [H|[H|[H|[H|[H|H]]]]].
      + rewrite (isLength_false deps 0 50 _ (or_intror H)). lia.
      + rewrite (isLength_false deps 0 50 _ (or_intror H)). lia.
      + rewrite (isLength_false deps 0 20 _ (or_intror H)). lia.
      + rewrite (notEmpty_false _ H). lia.
      + rewrite (notEmpty_false _ H). lia.
      + rewrite (notEmpty_false _ H). lia. }
    rewrite (part_booking_rejected deps env transporter w req E).
    repeat split.
  - intros H.
    assert (E : ServerJs.booking_validationResult deps req <> 0).
    { unfold ServerJs.booking_validationResult, ServerJs.booking_firstName,
        ServerJs.booking_lastName, ServerJs.booking_time.
      rewrite !text_chain, time_chain. cbv zeta. cbn [snd].
      destruct H as [H|[H|H]]; rewrite (notEmpty_false _ H); lia. }
    rewrite (server_booking_rejected deps env transporter w req E).
    repeat split.
Qed.

Lemma booking_bounds_rejected_witness :
  (status (fst (Part000.post_api_booking sample sample_env delivers
                  long_name_booking start)) = 400
   /\ success (fst (Part000.post_api_booking sample sample_env delivers
                      long_name_booking start)) = false
   /\ message (fst (Part000.post_api_booking sample sample_env delivers
                      long_name_booking start))
      = Some (u16 "Invalid form data. Please check all fields.")
   /\ snd (Part000.post_api_booking sample sample_env delivers
             long_name_booking start) = start)
  /\ (status (fst (ServerJs.post_api_booking sample sample_env delivers
                     blank_name_booking start)) = 400
      /\ success (fst (ServerJs.post_api_booking sample sample_env delivers
                         blank_name_booking start)) = false
      /\ message (fst (ServerJs.post_api_booking sample sample_env delivers
                         blank_name_booking start))
         = Some (u16 "Invalid data.")
      /\ snd (ServerJs.post_api_booking sample sample_env delivers
                blank_name_booking start) = start).
Proof.
  split.
  - apply (booking_bounds_rejected sample sample_env delivers
             long_name_booking start).
    + exact sample_counts_as_validator.
    + left. vm_compute. lia.
  - apply (booking_bounds_rejected sample sample_env delivers
             blank_name_booking start).
    left. vm_compute. reflexivity.
Defined.

(** A time made of blanks only passes [notEmpty], is then trimmed to the
    empty string, and the message is sent, in both files. *)
Remark booking_accepts_blank_time :
  validator_trim (toString (Booking.time blank_time_booking)) = []
  /\ fst (ServerJs.post_api_booking sample sample_env delivers
            blank_time_booking start) = respond 200 true None
  /\ length (outbox (snd (ServerJs.post_api_booking sample sample_env delivers
                            blank_time_booking start))) = 1
  /\ success (fst (Part000.post_api_booking sample sample_env delivers
                     blank_time_booking start)) = true
  /\ length (outbox (snd (Part000.post_api_booking sample sample_env delivers
                            blank_time_booking start))) = 1.
Proof. repeat split; vm_compute; reflexivity. Qed.

(* ================================================================= *)
(** ** POST /api/contact *)

(** C3, as stated, fails.  The length that [isLength] compares is not
    [.length]: a surrogate pair counts once.  A message of 2002 code units
    that are 1001 characters passes the chains of both files, and the
    message is sent. *)
Lemma contact_accepts_2002_code_units :
  length (validator_trim (toString (Contact.message faces_contact))) = 2002
  /\ (let r := ServerJs.post_api_contact sample sample_env delivers
                 faces_contact start in
      status (fst r) = 200 /\ success (fst r) = true
      /\ length (outbox (snd r)) = 1)
  /\ (let r := Part000.post_api_contact sample sample_env delivers
                 faces_contact start in
      status (fst r) = 200 /\ success (fst r) = true
      /\ length (outbox (snd r)) = 1).
Proof.
  split; [vm_compute; reflexivity|].
  split; vm_compute; repeat split.
Qed.

(** C3, amended.  A contact submission whose message is not an array and,
    once trimmed, has fewer than 10 code units, or counts fewer than 10 or
    more than 2000 characters as [isLength] counts them (the code units,
    less one for each surrogate pair and for each variation selector), is
    answered with the 400 invalid-data response and nothing is handed to
    the transport, in both files. *)
Theorem contact_message_length_rejected
    (deps : Deps) (env : Env) (transporter : Mail -> Settled)
    (req : Contact.Form) (w : World) :
  counts_as_validator deps ->
  length (validator_trim (toString (Contact.message req))) < 10
  \/ isLength_len (validator_trim (toString (Contact.message req))) < 10
  \/ 2000 < isLength_len (validator_trim (toString (Contact.message req))) ->
  (status (fst (ServerJs.post_api_contact deps env transporter req w)) = 400
   /\ success (fst (ServerJs.post_api_contact deps env transporter req w))
      = false
   /\ message (fst (ServerJs.post_api_contact deps env transporter req w))
      = Some (u16 "Invalid data.")
   /\ snd (ServerJs.post_api_contact deps env transporter req w) = w)
  /\
  (status (fst (Part000.post_api_contact deps env transporter req w)) = 400
   /\ success (fst (Part000.post_api_contact deps env transporter req w))
      = false
   /\ message (fst (Part000.post_api_contact deps env transporter req w))
      = Some (u16 "Invalid form data. Please check all fields.")
   /\ snd (Part000.post_api_contact deps env transporter req w) = w).
Proof.
  intros Hc H.
  assert (Hl : isLength deps 10 (Some 2000)
                 (validator_trim (toString (Contact.message req))) = false).
  { apply isLength_false. rewrite (Hc _).
    pose proof (isLength_len_le
                  (validator_trim (toString (Contact.message req)))).
    destruct H as [H|[H|H]]; [left|left|right]; lia. }
  split.
  - assert (E : ServerJs.contact_validationResult deps req <> 0).
    { unfold ServerJs.contact_validationResult, ServerJs.contact_message.
      rewrite message_chain. cbv zeta. cbn [snd]. rewrite Hl. lia. }
    rewrite (server_contact_rejected deps env transporter w req E).
    repeat split.
  - assert (E : Part000.contact_validationResult deps req <> 0).
    { unfold Part000.contact_validationResult, Part000.contact_message.
      rewrite message_chain. cbv zeta. cbn [snd]. rewrite Hl. lia. }
    rewrite (part_contact_rejected deps env transporter w req E).
    repeat split.
Qed.

Lemma contact_message_length_rejected_witness :
  (status (fst (ServerJs.post_api_contact sample sample_env delivers
                  short_contact start)) = 400
   /\ success (fst (ServerJs.post_api_contact sample sample_env delivers
                      short_contact start)) = false
   /\ message (fst (ServerJs.post_api_contact sample sample_env delivers
                      short_contact start)) = Some (u16 "Invalid data.")
   /\ snd (ServerJs.post_api_contact sample sample_env delivers
             short_contact start) = start)
  /\
  (status (fst (Part000.post_api_contact sample sample_env delivers
                  short_contact start)) = 400
   /\ success (fst (Part000.post_api_contact sample sample_env delivers
                      short_contact start)) = false
   /\ message (fst (Part000.post_api_contact sample sample_env delivers
                      short_contact start))
      = Some (u16 "Invalid form data. Please check all fields.")
   /\ snd (Part000.post_api_contact sample sample_env delivers
             short_contact start) = start).
Proof.
  apply (contact_message_length_rejected sample sample_env delivers
           short_contact start).
  - exact sample_counts_as_validator.
  - left. vm_compute. lia.
Defined.

(** How the message of 2002 code units is counted. *)
Remark contact_counts_pairs_once :
  length (toString (Contact.message faces_contact)) = 2002
  /\ charCount sample (validator_trim (toString (Contact.message faces_contact)))
     = 1001
  /\ ServerJs.contact_validationResult sample faces_contact = 0
  /\ Part000.contact_validationResult sample faces_contact = 0.
Proof. repeat split; vm_compute; reflexivity. Qed.

(** C5, as stated, fails.  The validation chain of [name] escapes the
    slash as well, so the name that reaches the body of the message is
    [&lt;b&gt;Bob&lt;&#x2F;b&gt;]; the string of the claim does not occur
    in the body at all. *)
Lemma contact_bob_name_differs :
  exists m : Mail,
    ServerJs.post_api_contact sample sample_env delivers bob_contact start
    = (respond 200 true None, {| outbox := [m]; console := [] |})
    /\ html m
       = ServerJs.contact_html (u16 "&lt;b&gt;Bob&lt;&#x2F;b&gt;")
           (u16 "bob@example.com") (u16 "Hello there, need help")
    /\ ServerJs.sanitize (fst (ServerJs.contact_name bob_contact))
       <> u16 "&lt;b&gt;Bob&lt;/b&gt;"
    /\ includes (html m) (u16 "&lt;b&gt;Bob&lt;/b&gt;") = false.
Proof.
  eexists. split; [vm_compute; reflexivity|].
  split; [vm_compute; reflexivity|].
  split; [vm_compute; discriminate|].
  vm_compute. reflexivity.
Qed.

(** C5, amended.  For the contact submission with name [<b>Bob</b>],
    address [bob@example.com] and message [Hello there, need help], when
    the address passes [isEmail] and the transport reports success, the
    answer is [success: true] and the name embedded in the body of the one
    message sent is [&lt;b&gt;Bob&lt;&#x2F;b&gt;], in both files. *)
Theorem contact_bob_scenario
    (deps : Deps) (env : Env) (transporter : Mail -> Settled) (w : World) :
  isEmail deps (u16 "bob@example.com") = true ->
  counts_plain_text deps ->
  transporter (ServerJs.contact_mailOptions deps env bob_contact) = Resolved ->
  transporter (Part000.contact_mailOptions deps env bob_contact) = Resolved ->
  (exists m : Mail,
     fst (ServerJs.post_api_contact deps env transporter bob_contact w)
     = respond 200 true None
     /\ outbox (snd (ServerJs.post_api_contact deps env transporter bob_contact w))
        = outbox w ++ [m]
     /\ html m
        = ServerJs.contact_html (u16 "&lt;b&gt;Bob&lt;&#x2F;b&gt;")
            (ServerJs.sanitize (normalizeEmail deps (u16 "bob@example.com")))
            (u16 "Hello there, need help")
     /\ status (fst (ServerJs.post_api_contact deps env transporter bob_contact w)) = 200
     /\ success (fst (ServerJs.post_api_contact deps env transporter bob_contact w)) = true
     /\ html m
        = tpl "
        <div style=`font-family:Arial,sans-serif;padding:30px;background:#f9f9f9`>
          <div style=`background:#080c0a;padding:20px;text-align:center;border-radius:8px 8px 0 0`>
            <h2 style=`color:#00e87a;margin:0`>LWA Leads Group</h2>
          </div>
          <div style=`background:#fff;padding:24px;border:1px solid #e0e0e0;border-top:none;border-radius:0 0 8px 8px`>
            <p><strong>Name:</strong> "
          ++ u16 "&lt;b&gt;Bob&lt;&#x2F;b&gt;"
          ++ tpl "</p>
            <p><strong>Email:</strong> "
          ++ ServerJs.sanitize (normalizeEmail deps (u16 "bob@example.com"))
          ++ tpl "</p>
            <p><strong>Message:</strong></p>
            <div style=`background:#f8f8f8;padding:16px;border-radius:4px`>
              "
          ++ u16 "Hello there, need help"
          ++ tpl "
            </div>
          </div>
        </div>
        ")
  /\
  (exists m : Mail,
     fst (Part000.post_api_contact deps env transporter bob_contact w)
     = respond 200 true (Some (u16 "Message sent! We will get back to you soon."))
     /\ outbox (snd (Part000.post_api_contact deps env transporter bob_contact w))
        = outbox w ++ [m]
     /\ html m
        = Part000.contact_html (u16 "&lt;b&gt;Bob&lt;&#x2F;b&gt;")
            (Part000.sanitize (normalizeEmail deps (u16 "bob@example.com")))
            (u16 "Hello there, need help")
     /\ status (fst (Part000.post_api_contact deps env transporter bob_contact w)) = 200
     /\ success (fst (Part000.post_api_contact deps env transporter bob_contact w)) = true
     /\ html m
        = tpl "
        <div style=`font-family:Arial,sans-serif;max-width:600px;margin:auto;background:#f9f9f9;padding:30px;border-radius:8px;`>
          <div style=`background:#080c0a;padding:20px;border-radius:6px 6px 0 0;text-align:center;`>
            <h2 style=`color:#00e87a;margin:0;font-size:22px;`>LWA Leads Group</h2>
            <p style=`color:#7a9484;margin:6px 0 0;font-size:13px;`>New Contact Message</p>
          </div>
          <div style=`background:#fff;padding:24px;border-radius:0 0 6px 6px;border:1px solid #e0e0e0;border-top:none;`>
            <table style=`width:100%;border-collapse:collapse;`>
              <tr>
                <td style=`padding:10px 0;border-bottom:1px solid #f0f0f0;color:#666;width:25%;font-size:14px;`><strong>Name</strong></td>
                <td style=`padding:10px 0;border-bottom:1px solid #f0f0f0;color:#222;font-size:14px;`>"
          ++ u16 "&lt;b&gt;Bob&lt;&#x2F;b&gt;"
          ++ tpl "</td>
              </tr>
              <tr>
                <td style=`padding:10px 0;border-bottom:1px solid #f0f0f0;color:#666;font-size:14px;`><strong>Email</strong></td>
                <td style=`padding:10px 0;border-bottom:1px solid #f0f0f0;color:#222;font-size:14px;`>"
          ++ Part000.sanitize (normalizeEmail deps (u16 "bob@example.com"))
          ++ tpl "</td>
              </tr>
            </table>
            <div style=`margin-top:20px;`>
              <p style=`color:#666;font-size:14px;margin-bottom:8px;`><strong>Message:</strong></p>
              <div style=`background:#f8f8f8;padding:16px;border-radius:4px;border:1px solid #eee;color:#333;font-size:14px;line-height:1.7;white-space:pre-wrap;`>"
          ++ u16 "Hello there, need help"
          ++ tpl "</div>
            </div>
            <div style=`margin-top:20px;padding:12px;background:#f0fdf4;border-left:3px solid #00e87a;border-radius:4px;`>
              <p style=`margin:0;font-size:13px;color:#444;`>"
          ++ LIGHT_BULB
          ++ tpl " Hit <strong>Reply</strong> to respond directly to "
          ++ u16 "&lt;b&gt;Bob&lt;&#x2F;b&gt;"
          ++ tpl ".</p>
            </div>
          </div>
          <p style=`text-align:center;color:#aaa;font-size:11px;margin-top:16px;`>Sent from LWA Leads Group website</p>
        </div>
      ").
Proof.
  intros Hmail Hplain HtS HtP.
  assert (Hmsg : isLength deps 10 (Some 2000) (u16 "Hello there, need help")
                 = true).
  { apply isLength_true. rewrite Hplain by (apply plain_literal; reflexivity).
    vm_compute. split; lia. }
  assert (Hname : isLength deps 0 (Some 100) (u16 "<b>Bob</b>") = true).
  { apply isLength_true. rewrite Hplain by (apply plain_literal; reflexivity).
    vm_compute. split; lia. }
  assert (HvS : ServerJs.contact_validationResult deps bob_contact = 0).
  { unfold ServerJs.contact_validationResult, ServerJs.contact_name,
      ServerJs.contact_email, ServerJs.contact_message.
    rewrite text_chain, email_chain, message_chain. cbv zeta. cbn [snd].
    change (toString (Contact.email bob_contact)) with (u16 "bob@example.com").
    change (validator_trim (toString (Contact.message bob_contact)))
      with (u16 "Hello there, need help").
    rewrite Hmail, Hmsg. reflexivity. }
  assert (HvP : Part000.contact_validationResult deps bob_contact = 0).
  { unfold Part000.contact_validationResult, Part000.contact_name,
      Part000.contact_email, Part000.contact_message.
    rewrite bounded_text_chain, email_chain, message_chain. cbv zeta. cbn [snd].
    change (toString (Contact.email bob_contact)) with (u16 "bob@example.com").
    change (validator_trim (toString (Contact.message bob_contact)))
      with (u16 "Hello there, need help").
    change (validator_trim (toString (Contact.name bob_contact)))
      with (u16 "<b>Bob</b>").
    rewrite Hmail, Hmsg, Hname. reflexivity. }
  split.
  - exists (ServerJs.contact_mailOptions deps env bob_contact).
    rewrite (server_contact_settled deps env transporter w bob_contact HvS).
    cbv zeta. rewrite HtS.
    do 5 (split; [reflexivity|]).
    change (html (ServerJs.contact_mailOptions deps env bob_contact)
            = ServerJs.contact_html (u16 "&lt;b&gt;Bob&lt;&#x2F;b&gt;")
                (ServerJs.sanitize (normalizeEmail deps (u16 "bob@example.com")))
                (u16 "Hello there, need help")).
    reflexivity.
  - exists (Part000.contact_mailOptions deps env bob_contact).
    rewrite (part_contact_settled deps env transporter w bob_contact HvP).
    cbv zeta. rewrite HtP.
    do 5 (split; [reflexivity|]).
    change (html (Part000.contact_mailOptions deps env bob_contact)
            = Part000.contact_html (u16 "&lt;b&gt;Bob&lt;&#x2F;b&gt;")
                (Part000.sanitize (normalizeEmail deps (u16 "bob@example.com")))
                (u16 "Hello there, need help")).
    reflexivity.
Qed.

Lemma contact_bob_scenario_witness :
  (exists m : Mail,
     fst (ServerJs.post_api_contact sample sample_env delivers bob_contact start)
     = respond 200 true None
     /\ outbox (snd (ServerJs.post_api_contact sample sample_env delivers bob_contact start))
        = outbox start ++ [m]
     /\ html m
        = ServerJs.contact_html (u16 "&lt;b&gt;Bob&lt;&#x2F;b&gt;")
            (ServerJs.sanitize (normalizeEmail sample (u16 "bob@example.com")))
            (u16 "Hello there, need help")
     /\ status (fst (ServerJs.post_api_contact sample sample_env delivers bob_contact start)) = 200
     /\ success (fst (ServerJs.post_api_contact sample sample_env delivers bob_contact start)) = true
     /\ html m
        = tpl "
        <div style=`font-family:Arial,sans-serif;padding:30px;background:#f9f9f9`>
          <div style=`background:#080c0a;padding:20px;text-align:center;border-radius:8px 8px 0 0`>
            <h2 style=`color:#00e87a;margin:0`>LWA Leads Group</h2>
          </div>
          <div style=`background:#fff;padding:24px;border:1px solid #e0e0e0;border-top:none;border-radius:0 0 8px 8px`>
            <p><strong>Name:</strong> "
          ++ u16 "&lt;b&gt;Bob&lt;&#x2F;b&gt;"
          ++ tpl "</p>
            <p><strong>Email:</strong> "
          ++ ServerJs.sanitize (normalizeEmail sample (u16 "bob@example.com"))
          ++ tpl "</p>
            <p><strong>Message:</strong></p>
            <div style=`background:#f8f8f8;padding:16px;border-radius:4px`>
              "
          ++ u16 "Hello there, need help"
          ++ tpl "
            </div>
          </div>
        </div>
        ")
  /\
  (exists m : Mail,
     fst (Part000.post_api_contact sample sample_env delivers bob_contact start)
     = respond 200 true (Some (u16 "Message sent! We will get back to you soon."))
     /\ outbox (snd (Part000.post_api_contact sample sample_env delivers bob_contact start))
        = outbox start ++ [m]
     /\ html m
        = Part000.contact_html (u16 "&lt;b&gt;Bob&lt;&#x2F;b&gt;")
            (Part000.sanitize (normalizeEmail sample (u16 "bob@example.com")))
            (u16 "Hello there, need help")
     /\ status (fst (Part000.post_api_contact sample sample_env delivers bob_contact start)) = 200
     /\ success (fst (Part000.post_api_contact sample sample_env delivers bob_contact start)) = true
     /\ html m
        = tpl "
        <div style=`font-family:Arial,sans-serif;max-width:600px;margin:auto;background:#f9f9f9;padding:30px;border-radius:8px;`>
          <div style=`background:#080c0a;padding:20px;border-radius:6px 6px 0 0;text-align:center;`>
            <h2 style=`color:#00e87a;margin:0;font-size:22px;`>LWA Leads Group</h2>
            <p style=`color:#7a9484;margin:6px 0 0;font-size:13px;`>New Contact Message</p>
          </div>
          <div style=`background:#fff;padding:24px;border-radius:0 0 6px 6px;border:1px solid #e0e0e0;border-top:none;`>
            <table style=`width:100%;border-collapse:collapse;`>
              <tr>
                <td style=`padding:10px 0;border-bottom:1px solid #f0f0f0;color:#666;width:25%;font-size:14px;`><strong>Name</strong></td>
                <td style=`padding:10px 0;border-bottom:1px solid #f0f0f0;color:#222;font-size:14px;`>"
          ++ u16 "&lt;b&gt;Bob&lt;&#x2F;b&gt;"
          ++ tpl "</td>
              </tr>
              <tr>
                <td style=`padding:10px 0;border-bottom:1px solid #f0f0f0;color:#666;font-size:14px;`><strong>Email</strong></td>
                <td style=`padding:10px 0;border-bottom:1px solid #f0f0f0;color:#222;font-size:14px;`>"
          ++ Part000.sanitize (normalizeEmail sample (u16 "bob@example.com"))
          ++ tpl "</td>
              </tr>
            </table>
            <div style=`margin-top:20px;`>
              <p style=`color:#666;font-size:14px;margin-bottom:8px;`><strong>Message:</strong></p>
              <div style=`background:#f8f8f8;padding:16px;border-radius:4px;border:1px solid #eee;color:#333;font-size:14px;line-height:1.7;white-space:pre-wrap;`>"
          ++ u16 "Hello there, need help"
          ++ tpl "</div>
            </div>
            <div style=`margin-top:20px;padding:12px;background:#f0fdf4;border-left:3px solid #00e87a;border-radius:4px;`>
              <p style=`margin:0;font-size:13px;color:#444;`>"
          ++ LIGHT_BULB
          ++ tpl " Hit <strong>Reply</strong> to respond directly to "
          ++ u16 "&lt;b&gt;Bob&lt;&#x2F;b&gt;"
          ++ tpl ".</p>
            </div>
          </div>
          <p style=`text-align:center;color:#aaa;font-size:11px;margin-top:16px;`>Sent from LWA Leads Group website</p>
        </div>
      ").
Proof.
  apply (contact_bob_scenario sample sample_env delivers start).
  - vm_compute. reflexivity.
  - exact sample_counts_plain_text.
  - reflexivity.
  - reflexivity.
Defined.

(** C9.  For a contact submission that passes validation and whose
    trimmed and escaped message is longer than 500 code units, the body of
    the one message handed to the transport is the template with the first
    500 code units of that escaped message in the place of the message,
    and nothing of what follows them: the escaped message is the embedded
    part followed by a non-empty rest.  The answer is still status 200 with
    [success: true] once the transport reports success.  This holds in
    both files. *)
Theorem contact_message_cut_at_500
    (deps : Deps) (env : Env) (transporter : Mail -> Settled)
    (req : Contact.Form) (w : World) :
  500 < length (escape (validator_trim (toString (Contact.message req)))) ->
  (ServerJs.contact_validationResult deps req = 0 ->
   exists (m : Mail) (rest : jsstring),
     outbox (snd (ServerJs.post_api_contact deps env transporter req w))
     = outbox w ++ [m]
     /\ html m
        = tpl "
        <div style=`font-family:Arial,sans-serif;padding:30px;background:#f9f9f9`>
          <div style=`background:#080c0a;padding:20px;text-align:center;border-radius:8px 8px 0 0`>
            <h2 style=`color:#00e87a;margin:0`>LWA Leads Group</h2>
          </div>
          <div style=`background:#fff;padding:24px;border:1px solid #e0e0e0;border-top:none;border-radius:0 0 8px 8px`>
            <p><strong>Name:</strong> "
          ++ ServerJs.sanitize (fst (ServerJs.contact_name req))
          ++ tpl "</p>
            <p><strong>Email:</strong> "
          ++ ServerJs.sanitize (fst (ServerJs.contact_email deps req))
          ++ tpl "</p>
            <p><strong>Message:</strong></p>
            <div style=`background:#f8f8f8;padding:16px;border-radius:4px`>
              "
          ++ firstn 500 (escape (validator_trim (toString (Contact.message req))))
          ++ tpl "
            </div>
          </div>
        </div>
        "
     /\ escape (validator_trim (toString (Contact.message req)))
        = firstn 500 (escape (validator_trim (toString (Contact.message req))))
          ++ rest
     /\ rest <> []
     /\ (transporter m = Resolved ->
         status (fst (ServerJs.post_api_contact deps env transporter req w)) = 200
         /\ success (fst (ServerJs.post_api_contact deps env transporter req w)) = true
         /\ message (fst (ServerJs.post_api_contact deps env transporter req w))
            = None))
  /\
  (Part000.contact_validationResult deps req = 0 ->
   exists (m : Mail) (rest : jsstring),
     outbox (snd (Part000.post_api_contact deps env transporter req w))
     = outbox w ++ [m]
     /\ html m
        = tpl "
        <div style=`font-family:Arial,sans-serif;max-width:600px;margin:auto;background:#f9f9f9;padding:30px;border-radius:8px;`>
          <div style=`background:#080c0a;padding:20px;border-radius:6px 6px 0 0;text-align:center;`>
            <h2 style=`color:#00e87a;margin:0;font-size:22px;`>LWA Leads Group</h2>
            <p style=`color:#7a9484;margin:6px 0 0;font-size:13px;`>New Contact Message</p>
          </div>
          <div style=`background:#fff;padding:24px;border-radius:0 0 6px 6px;border:1px solid #e0e0e0;border-top:none;`>
            <table style=`width:100%;border-collapse:collapse;`>
              <tr>
                <td style=`padding:10px 0;border-bottom:1px solid #f0f0f0;color:#666;width:25%;font-size:14px;`><strong>Name</strong></td>
                <td style=`padding:10px 0;border-bottom:1px solid #f0f0f0;color:#222;font-size:14px;`>"
          ++ Part000.sanitize (fst (Part000.contact_name deps req))
          ++ tpl "</td>
              </tr>
              <tr>
                <td style=`padding:10px 0;border-bottom:1px solid #f0f0f0;color:#666;font-size:14px;`><strong>Email</strong></td>
                <td style=`padding:10px 0;border-bottom:1px solid #f0f0f0;color:#222;font-size:14px;`>"
          ++ Part000.sanitize (fst (Part000.contact_email deps req))
          ++ tpl "</td>
              </tr>
            </table>
            <div style=`margin-top:20px;`>
              <p style=`color:#666;font-size:14px;margin-bottom:8px;`><strong>Message:</strong></p>
              <div style=`background:#f8f8f8;padding:16px;border-radius:4px;border:1px solid #eee;color:#333;font-size:14px;line-height:1.7;white-space:pre-wrap;`>"
          ++ firstn 500 (escape (validator_trim (toString (Contact.message req))))
          ++ tpl "</div>
            </div>
            <div style=`margin-top:20px;padding:12px;background:#f0fdf4;border-left:3px solid #00e87a;border-radius:4px;`>
              <p style=`margin:0;font-size:13px;color:#444;`>"
          ++ LIGHT_BULB
          ++ tpl " Hit <strong>Reply</strong> to respond directly to "
          ++ Part000.sanitize (fst (Part000.contact_name deps req))
          ++ tpl ".</p>
            </div>
          </div>
          <p style=`text-align:center;color:#aaa;font-size:11px;margin-top:16px;`>Sent from LWA Leads Group website</p>
        </div>
      "
     /\ escape (validator_trim (toString (Contact.message req)))
        = firstn 500 (escape (validator_trim (toString (Contact.message req))))
          ++ rest
     /\ rest <> []
     /\ (transporter m = Resolved ->
         status (fst (Part000.post_api_contact deps env transporter req w)) = 200
         /\ success (fst (Part000.post_api_contact deps env transporter req w)) = true
         /\ message (fst (Part000.post_api_contact deps env transporter req w))
            = Some (u16 "Message sent! We will get back to you soon."))).
Proof.
  intros Hlong.
  destruct (firstn_cuts _ 500 Hlong) as (rest & Hrest & Hne).
  destruct (sanitize_of_escaped _
              (validator_trim_trimmed (toString (Contact.message req))))
    as [HS HP].
  split; intros Hv.
  - exists (ServerJs.contact_mailOptions deps env req), rest.
    rewrite (server_contact_settled deps env transporter w req Hv).
    cbv zeta. split; [|split; [|split; [|split]]]; try assumption.
    + destruct (transporter _); reflexivity.
    + unfold ServerJs.contact_mailOptions. cbn [html].
      unfold ServerJs.contact_message at 1. rewrite message_chain.
      cbv zeta. cbn [fst]. rewrite HS. reflexivity.
    + intros Ht. rewrite Ht. repeat split.
  - exists (Part000.contact_mailOptions deps env req), rest.
    rewrite (part_contact_settled deps env transporter w req Hv).
    cbv zeta. split; [|split; [|split; [|split]]]; try assumption.
    + destruct (transporter _); reflexivity.
    + unfold Part000.contact_mailOptions. cbn [html].
      unfold Part000.contact_message at 1. rewrite message_chain.
      cbv zeta. cbn [fst]. rewrite HP. reflexivity.
    + intros Ht. rewrite Ht. repeat split.
Qed.

Lemma contact_message_cut_at_500_witness :
   exists (m : Mail) (rest : jsstring),
     outbox (snd (ServerJs.post_api_contact sample sample_env delivers long_contact start))
     = outbox start ++ [m]
     /\ html m
        = tpl "
        <div style=`font-family:Arial,sans-serif;padding:30px;background:#f9f9f9`>
          <div style=`background:#080c0a;padding:20px;text-align:center;border-radius:8px 8px 0 0`>
            <h2 style=`color:#00e87a;margin:0`>LWA Leads Group</h2>
          </div>
          <div style=`background:#fff;padding:24px;border:1px solid #e0e0e0;border-top:none;border-radius:0 0 8px 8px`>
            <p><strong>Name:</strong> "
          ++ ServerJs.sanitize (fst (ServerJs.contact_name long_contact))
          ++ tpl "</p>
            <p><strong>Email:</strong> "
          ++ ServerJs.sanitize (fst (ServerJs.contact_email sample long_contact))
          ++ tpl "</p>
            <p><strong>Message:</strong></p>
            <div style=`background:#f8f8f8;padding:16px;border-radius:4px`>
              "
          ++ firstn 500 (escape (validator_trim (toString (Contact.message long_contact))))
          ++ tpl "
            </div>
          </div>
        </div>
        "
     /\ escape (validator_trim (toString (Contact.message long_contact)))
        = firstn 500 (escape (validator_trim (toString (Contact.message long_contact))))
          ++ rest
     /\ rest <> []
     /\ (delivers m = Resolved ->
         status (fst (ServerJs.post_api_contact sample sample_env delivers long_contact start)) = 200
         /\ success (fst (ServerJs.post_api_contact sample sample_env delivers long_contact start)) = true
         /\ message (fst (ServerJs.post_api_contact sample sample_env delivers long_contact start))
            = None).
Proof.
  apply (contact_message_cut_at_500 sample sample_env delivers long_contact
           start).
  - vm_compute. lia.
  - vm_compute. reflexivity.
Defined.

(* ================================================================= *)
(** ** Transport failure, and the subject line *)

(** C6.  For a submission that passed validation, when the transport
    fails with any error the handler answers with status 500,
    [success: false] and a fixed message in which the error does not
    occur, and the transport has been called once: the outbox grows by the
    one message.  The error message goes to the console.  This holds for
    the booking and the contact handler of both files. *)
Theorem transport_failure_generic_once
    (deps : Deps) (env : Env) (transporter : Mail -> Settled)
    (w : World) (err : jsstring) :
  (forall req : Booking.Form,
     ServerJs.booking_validationResult deps req = 0 ->
     transporter (ServerJs.booking_mailOptions deps env req) = Rejected err ->
     status (fst (ServerJs.post_api_booking deps env transporter req w)) = 500
     /\ success (fst (ServerJs.post_api_booking deps env transporter req w)) = false
     /\ message (fst (ServerJs.post_api_booking deps env transporter req w))
        = Some (u16 "Failed to send.")
     /\ outbox (snd (ServerJs.post_api_booking deps env transporter req w))
        = outbox w ++ [ServerJs.booking_mailOptions deps env req]
     /\ console (snd (ServerJs.post_api_booking deps env transporter req w))
        = console w
          ++ [console_error [CROSS_MARK ++ u16 " Booking failed:"; err]])
  /\
  (forall req : Contact.Form,
     ServerJs.contact_validationResult deps req = 0 ->
     transporter (ServerJs.contact_mailOptions deps env req) = Rejected err ->
     status (fst (ServerJs.post_api_contact deps env transporter req w)) = 500
     /\ success (fst (ServerJs.post_api_contact deps env transporter req w)) = false
     /\ message (fst (ServerJs.post_api_contact deps env transporter req w))
        = Some (u16 "Failed to send.")
     /\ outbox (snd (ServerJs.post_api_contact deps env transporter req w))
        = outbox w ++ [ServerJs.contact_mailOptions deps env req]
     /\ console (snd (ServerJs.post_api_contact deps env transporter req w))
        = console w
          ++ [console_error [CROSS_MARK ++ u16 " Contact failed:"; err]])
  /\
  (forall req : Booking.Form,
     Part000.booking_validationResult deps req = 0 ->
     transporter (Part000.booking_mailOptions deps env req) = Rejected err ->
     status (fst (Part000.post_api_booking deps env transporter req w)) = 500
     /\ success (fst (Part000.post_api_booking deps env transporter req w)) = false
     /\ message (fst (Part000.post_api_booking deps env transporter req w))
        = Some (u16 "Failed to send. Please try again or contact us directly.")
     /\ outbox (snd (Part000.post_api_booking deps env transporter req w))
        = outbox w ++ [Part000.booking_mailOptions deps env req]
     /\ console (snd (Part000.post_api_booking deps env transporter req w))
        = console w
          ++ [console_error [CROSS_MARK ++ u16 " Booking email failed:"; err]])
  /\
  (forall req : Contact.Form,
     Part000.contact_validationResult deps req = 0 ->
     transporter (Part000.contact_mailOptions deps env req) = Rejected err ->
     status (fst (Part000.post_api_contact deps env transporter req w)) = 500
     /\ success (fst (Part000.post_api_contact deps env transporter req w)) = false
     /\ message (fst (Part000.post_api_contact deps env transporter req w))
        = Some (u16 "Failed to send. Please try again or contact us directly.")
     /\ outbox (snd (Part000.post_api_contact deps env transporter req w))
        = outbox w ++ [Part000.contact_mailOptions deps env req]
     /\ console (snd (Part000.post_api_contact deps env transporter req w))
        = console w
          ++ [console_error [CROSS_MARK ++ u16 " Contact email failed:"; err]]).
Proof.
  split; [|split; [|split]]; intros req Hv Ht.
  - rewrite (server_booking_settled deps env transporter w req Hv).
    cbv zeta. rewrite Ht. repeat split.
  - rewrite (server_contact_settled deps env transporter w req Hv).
    cbv zeta. rewrite Ht. repeat split.
  - rewrite (part_booking_settled deps env transporter w req Hv).
    cbv zeta. rewrite Ht. repeat split.
  - rewrite (part_contact_settled deps env transporter w req Hv).
    cbv zeta. rewrite Ht. repeat split.
Qed.

Lemma transport_failure_generic_once_witness :
  (status (fst (ServerJs.post_api_booking sample sample_env refuses
                  bob_booking start)) = 500
   /\ success (fst (ServerJs.post_api_booking sample sample_env refuses
                      bob_booking start)) = false
   /\ message (fst (ServerJs.post_api_booking sample sample_env refuses
                      bob_booking start)) = Some (u16 "Failed to send.")
   /\ outbox (snd (ServerJs.post_api_booking sample sample_env refuses
                     bob_booking start))
      = outbox start ++ [ServerJs.booking_mailOptions sample sample_env bob_booking]
   /\ console (snd (ServerJs.post_api_booking sample sample_env refuses
                      bob_booking start))
      = console start
        ++ [console_error
              [CROSS_MARK ++ u16 " Booking failed:";
               u16 "Invalid login: 535 Authentication failed"]])
  /\
  (status (fst (Part000.post_api_contact sample sample_env refuses
                  bob_contact start)) = 500
   /\ success (fst (Part000.post_api_contact sample sample_env refuses
                      bob_contact start)) = false
   /\ message (fst (Part000.post_api_contact sample sample_env refuses
                      bob_contact start))
      = Some (u16 "Failed to send. Please try again or contact us directly.")
   /\ outbox (snd (Part000.post_api_contact sample sample_env refuses
                     bob_contact start))
      = outbox start ++ [Part000.contact_mailOptions sample sample_env bob_contact]
   /\ console (snd (Part000.post_api_contact sample sample_env refuses
                      bob_contact start))
      = console start
        ++ [console_error
              [CROSS_MARK ++ u16 " Contact email failed:";
               u16 "Invalid login: 535 Authentication failed"]]).
Proof.
  destruct (transport_failure_generic_once sample sample_env refuses start
              (u16 "Invalid login: 535 Authentication failed"))
    as (HSb & _ & _ & HPc).
  split.
  - apply HSb; vm_compute; reflexivity.
  - apply HPc; vm_compute; reflexivity.
Defined.

(** C10.  [sanitize] leaves a line feed inside a name where it is.  The
    name below passes the chain of [name] (and of [firstName]), comes out
    of [sanitize] unchanged, line feed included, and is the tail of the
    subject of the message; the contact handler of [src/server.js] hands
    that message to the transport. *)
Theorem newline_reaches_subject :
  exists name : jsstring,
    In LF name
    /\ (forall (deps : Deps) (env : Env) (email message : value),
          let req := {| Contact.name := VString name;
                        Contact.email := email;
                        Contact.message := message |} in
          snd (ServerJs.contact_name req) = 0
          /\ ServerJs.sanitize (fst (ServerJs.contact_name req)) = name
          /\ subject (ServerJs.contact_mailOptions deps env req)
             = ENVELOPE ++ u16 " New Message from " ++ name)
    /\ (forall (deps : Deps) (env : Env) (email message : value),
          let req := {| Contact.name := VString name;
                        Contact.email := email;
                        Contact.message := message |} in
          counts_plain_text deps ->
          snd (Part000.contact_name deps req) = 0
          /\ Part000.sanitize (fst (Part000.contact_name deps req)) = name
          /\ subject (Part000.contact_mailOptions deps env req)
             = ENVELOPE ++ u16 " New Message from " ++ name)
    /\ (forall (deps : Deps) (env : Env) (last email date time : value),
          let req := {| Booking.firstName := VString name;
                        Booking.lastName := last;
                        Booking.email := email;
                        Booking.date := date;
                        Booking.time := time |} in
          snd (ServerJs.booking_firstName req) = 0
          /\ subject (ServerJs.booking_mailOptions deps env req)
             = CALENDAR ++ u16 " New Booking " ++ EM_DASH ++ u16 " "
               ++ name ++ u16 " "
               ++ ServerJs.sanitize (fst (ServerJs.booking_lastName req)))
    /\ (exists m : Mail,
          ServerJs.post_api_contact sample sample_env delivers
            {| Contact.name := VString name;
               Contact.email := VString (u16 "bob@example.com");
               Contact.message := VString (u16 "Hello there, need help") |}
            start
          = (respond 200 true None, {| outbox := [m]; console := [] |})
          /\ In LF (subject m)).
Proof.
  exists two_line_name. split; [|split; [|split; [|split]]].
  - vm_compute. tauto.
  - intros deps env email message req. repeat split.
  - intros deps env email message req Hplain.
    assert (Hname : isLength deps 0 (Some 100) two_line_name = true).
    { apply isLength_true.
      rewrite Hplain by (apply plain_literal; reflexivity).
      vm_compute. split; lia. }
    split; [|split].
    + unfold Part000.contact_name. rewrite bounded_text_chain.
      cbv zeta. cbn [snd].
      change (validator_trim (toString (Contact.name req)))
        with two_line_name.
      rewrite Hname. reflexivity.
    + reflexivity.
    + reflexivity.
  - intros deps env last email date time req. split; reflexivity.
  - eexists. split; [vm_compute; reflexivity|].
    vm_compute. tauto.
Qed.

Lemma newline_reaches_subject_witness :
  exists name : jsstring,
    In LF name
    /\ snd (Part000.contact_name sample
              {| Contact.name := VString name;
                 Contact.email := VUndefined;
                 Contact.message := VUndefined |}) = 0.
Proof.
  destruct newline_reaches_subject as (name & Hin & _ & HP & _).
  exists name. split; [exact Hin|].
  apply (HP sample sample_env VUndefined VUndefined).
  exact sample_counts_plain_text.
Defined.

(* ================================================================= *)
(** ** Splitting, joining and looking up strings *)

Lemma eqs_true (a b : jsstring) : eqs a b = true <-> a = b.
Proof.
  revert b; induction a as [|x a IH]; intros [|y b]; simpl;
    try (split; [discriminate | discriminate]); try tauto.
  rewrite andb_true_iff, N.eqb_eq, IH. split.
  - intros [-> ->]. reflexivity.
  - intros E. injection E as -> ->. auto.
Qed.

Lemma array_includes_In (xs : list jsstring) (x : jsstring) :
  array_includes xs x = true <-> In x xs.
Proof.
  unfold array_includes. rewrite existsb_exists. split.
  - intros (y & Hy & E). apply eqs_true in E. now subst.
  - intros H. exists x. split; [exact H | now apply eqs_true].
Qed.

Lemma split_not_nil (sep : codeunit) (s : jsstring) : split sep s <> [].
Proof.
  destruct s as [|c t]; simpl; [discriminate|].
  destruct (N.eqb c sep); [discriminate|].
  destruct (split sep t); discriminate.
Qed.

Lemma split_pieces (sep : codeunit) (s x : jsstring) :
  In x (split sep s) -> ~ In sep x.
Proof.
  revert x; induction s as [|c t IH]; simpl; intros x H.
  - destruct H as [<-|[]]. intros [].
  - destruct (N.eqb_spec c sep) as [->|Hne].
    + destruct H as [<-|H]; [intros [] | now apply IH].
    + destruct (split sep t) as [|h r] eqn:E.
      * destruct H as [<-|[]]. intros [E1|[]]. now apply Hne.
      * destruct H as [<-|H].
        -- intros [E1|E1]; [now apply Hne|].
           apply (IH h); [now left | exact E1].
        -- apply IH. now right.
Qed.

Lemma split_piece (sep : codeunit) (x : jsstring) :
  ~ In sep x -> split sep x = [x].
Proof.
  induction x as [|c t IH]; simpl; intros H; [reflexivity|].
  destruct (N.eqb_spec c sep) as [->|Hne]; [exfalso; apply H; now left|].
  rewrite IH by tauto. reflexivity.
Qed.

Lemma split_app_sep (sep : codeunit) (x rest : jsstring) :
  ~ In sep x -> split sep (x ++ sep :: rest) = x :: split sep rest.
Proof.
  induction x as [|c t IH]; simpl; intros H.
  - now rewrite N.eqb_refl.
  - destruct (N.eqb_spec c sep) as [->|Hne]; [exfalso; apply H; now left|].
    rewrite IH by tauto. reflexivity.
Qed.

(** Joining pieces that hold no separator and splitting again gives the
    pieces back. *)
Lemma split_join (sep : codeunit) (xs : list jsstring) :
  xs <> [] -> (forall x, In x xs -> ~ In sep x) ->
  split sep (join sep xs) = xs.
Proof.
  induction xs as [|x r IH]; intros Hne H; [congruence|].
  destruct r as [|y r'].
  - simpl. apply split_piece. apply H. now left.
  - change (join sep (x :: y :: r')) with (x ++ sep :: join sep (y :: r')).
    rewrite split_app_sep by (apply H; now left).
    rewrite IH; [reflexivity | discriminate |].
    intros z Hz. apply H. now right.
Qed.

Lemma join_split (sep : codeunit) (s : jsstring) :
  join sep (split sep s) = s.
Proof.
  induction s as [|c t IH]; [reflexivity|].
  cbn [split]. pose proof (split_not_nil sep t) as Hn.
  destruct (split sep t) as [|h r]; [congruence|].
  destruct (N.eqb_spec c sep) as [->|Hne].
  - change (join sep ([] :: h :: r)) with (sep :: join sep (h :: r)).
    now rewrite IH.
  - destruct r as [|y r'].
    + simpl in *. now rewrite IH.
    + change (join sep ((c :: h) :: y :: r'))
        with (c :: join sep (h :: y :: r')).
      now rewrite IH.
Qed.

Lemma join_nil (sep : codeunit) (xs : list jsstring) (e : jsstring) :
  join sep xs = [] -> In e xs -> e = [].
Proof.
  destruct xs as [|x r]; [intros _ []|].
  destruct r as [|y r'].
  - simpl. intros -> [<-|[]]. reflexivity.
  - change (join sep (x :: y :: r')) with (x ++ sep :: join sep (y :: r')).
    intros E. destruct x; discriminate E.
Qed.

Lemma trimmed_edges (s : jsstring) (c : codeunit) :
  trimmed s -> (exists t, s = c :: t) \/ (exists t, s = t ++ [c]) ->
  isWhiteSpace c = false.
Proof.
  intros [H1 H2] [[t ->]|[t ->]].
  - simpl in H1. now apply negb_true_iff.
  - rewrite rev_app_distr in H2. simpl in H2. now apply negb_true_iff.
Qed.

(* ================================================================= *)
(** ** The [origin] function of the cors options *)

Lemma allowed_entry (s o : jsstring) :
  In o (map trim (split COMMA s)) -> ~ In COMMA o /\ trim o = o.
Proof.
  intros H. apply in_map_iff in H. destruct H as (e & <- & He). split.
  - intros Hc. apply In_trim in Hc. exact (split_pieces _ _ _ He Hc).
  - apply trimmed_trim, trim_trimmed.
Qed.

Example parseInt_reads :
  parseInt (VString (u16 "465")) = Some 465%Z
  /\ parseInt (VString (u16 "  587 tls")) = Some 587%Z
  /\ parseInt (VString (u16 "0x1D1")) = Some 465%Z
  /\ parseInt (VString (u16 "-25")) = Some (-25)%Z
  /\ parseInt (VString (u16 "smtp")) = None
  /\ parseInt (VString (u16 "0x")) = None
  /\ parseInt VUndefined = None.
Proof. repeat split; reflexivity. Qed.

Example split_pieces_of_a_list :
  map trim (split COMMA (u16 "https://a.example , https://b.example,"))
  = [u16 "https://a.example"; u16 "https://b.example"; []].
Proof. reflexivity. Qed.

(** X1.  An Origin that is not empty and holds a comma, or has white
    space at either end, is refused by all three copies whatever
    [ALLOWED_ORIGINS] is: the entries of the list are cut at commas and
    trimmed, and the default entry of the first copy has neither. *)
Theorem origin_with_comma_or_blank_refused (st : Settings) (o : jsstring) :
  o <> [] ->
  In COMMA o \/ trim o <> o ->
  ServerJsSetup.cors_origin st (Some o) = Deny (u16 "CORS")
  /\ Part000Setup.cors_origin st (Some o)
     = Deny (u16 "CORS policy: origin not allowed")
  /\ Part000Copy2.cors_origin st (Some o) = Deny (u16 "CORS").
Proof.
  intros Hne Hbad.
  assert (T : truthy (read (Some o)) = true) by (destruct o; [congruence | reflexivity]).
  assert (Hout : forall s, array_includes (map trim (split COMMA s)) o = false).
  { intros s. destruct (array_includes _ o) eqn:E; [|reflexivity].
    apply array_includes_In, allowed_entry in E. destruct E as [E1 E2].
    destruct Hbad; contradiction. }
  assert (Hloc : array_includes [u16 "http://localhost:3000"] o = false).
  { destruct (array_includes _ o) eqn:E; [|reflexivity].
    apply array_includes_In in E. destruct E as [<-|[]]. exfalso.
    destruct Hbad as [Hc|Ht]; [not_in_literal Hc | now apply Ht]. }
  unfold ServerJsSetup.cors_origin, Part000Setup.cors_origin,
    Part000Copy2.cors_origin, Part000Setup.allowedOrigins.
  rewrite T. cbn [negb orb read String_].
  rewrite !Hout.
  destruct (truthy (read (ALLOWED_ORIGINS st))); rewrite ?Hout, ?Hloc; auto.
Qed.

Lemma origin_with_comma_or_blank_refused_witness :
  ServerJsSetup.cors_origin site_settings (Some (u16 "https://lwa.example "))
  = Deny (u16 "CORS")
  /\ Part000Setup.cors_origin site_settings (Some (u16 "https://lwa.example "))
     = Deny (u16 "CORS policy: origin not allowed")
  /\ Part000Copy2.cors_origin site_settings (Some (u16 "https://lwa.example "))
     = Deny (u16 "CORS").
Proof.
  apply origin_with_comma_or_blank_refused.
  - discriminate.
  - right. vm_compute. discriminate.
Defined.

(** X2.  When [ALLOWED_ORIGINS] is a list of entries joined by commas, none
    of which holds a comma, every entry is allowed once trimmed, by all
    three copies. *)
Theorem listed_origin_allowed
    (st : Settings) (entries : list jsstring) (e : jsstring) :
  (forall x, In x entries -> ~ In COMMA x) ->
  In e entries ->
  ALLOWED_ORIGINS st = Some (join COMMA entries) ->
  ServerJsSetup.cors_origin st (Some (trim e)) = Allow
  /\ Part000Setup.cors_origin st (Some (trim e)) = Allow
  /\ Part000Copy2.cors_origin st (Some (trim e)) = Allow.
Proof.
  intros Hc He Hs.
  assert (Hne : entries <> []) by (destruct entries; [destruct He | discriminate]).
  unfold ServerJsSetup.cors_origin, Part000Setup.cors_origin,
    Part000Copy2.cors_origin, Part000Setup.allowedOrigins.
  rewrite Hs. cbn [read String_].
  destruct (truthy (VString (trim e))) eqn:T; [|auto].
  cbn [negb orb].
  destruct (truthy (VString (join COMMA entries))) eqn:TJ.
  - assert (Hin : array_includes
                    (map trim (split COMMA (join COMMA entries))) (trim e)
                  = true).
    { apply array_includes_In. rewrite split_join by assumption.
      now apply in_map. }
    rewrite Hin. auto.
  - exfalso. assert (E : join COMMA entries = []).
    { simpl in TJ. destruct (join COMMA entries); [reflexivity | discriminate]. }
    rewrite (join_nil COMMA entries e E He) in T. discriminate T.
Qed.

Lemma listed_origin_allowed_witness :
  ServerJsSetup.cors_origin site_settings
    (Some (trim (u16 " https://www.lwa.example"))) = Allow
  /\ Part000Setup.cors_origin site_settings
       (Some (trim (u16 " https://www.lwa.example"))) = Allow
  /\ Part000Copy2.cors_origin site_settings
       (Some (trim (u16 " https://www.lwa.example"))) = Allow.
Proof.
  apply (listed_origin_allowed site_settings
           [u16 "https://lwa.example"; u16 " https://www.lwa.example"]).
  - intros x [<-|[<-|[]]] H; not_in_literal H.
  - right. left. reflexivity.
  - reflexivity.
Defined.

(** X3.  The second copy decides as [src/server.js] does.  The first copy
    allows the same origins as [src/server.js] when [ALLOWED_ORIGINS] is
    a non-empty string.  When it is unset or empty, [src/server.js]
    refuses every non-empty Origin, and the first copy allows
    [http://localhost:3000] and no other. *)
Theorem origins_across_copies (st : Settings) (origin : option jsstring) :
  Part000Copy2.cors_origin st origin = ServerJsSetup.cors_origin st origin
  /\ (truthy (read (ALLOWED_ORIGINS st)) = true ->
      (ServerJsSetup.cors_origin st origin = Allow
       <-> Part000Setup.cors_origin st origin = Allow))
  /\ (truthy (read (ALLOWED_ORIGINS st)) = false ->
      forall o : jsstring, origin = Some o -> o <> [] ->
      ServerJsSetup.cors_origin st origin = Deny (u16 "CORS")
      /\ (Part000Setup.cors_origin st origin = Allow
          <-> o = u16 "http://localhost:3000")).
Proof.
  split; [reflexivity|]. split.
  - intros T.
    unfold ServerJsSetup.cors_origin, Part000Setup.cors_origin,
      Part000Setup.allowedOrigins.
    rewrite T. destruct (truthy (read origin)); cbn [negb orb]; [|tauto].
    destruct (array_includes _ _); split; intros H; try reflexivity;
      discriminate H.
  - intros T o -> Hne.
    assert (To : truthy (read (Some o)) = true)
      by (destruct o; [congruence | reflexivity]).
    unfold ServerJsSetup.cors_origin, Part000Setup.cors_origin,
      Part000Setup.allowedOrigins.
    rewrite T, To. cbn [negb orb read String_]. split.
    + assert (E : array_includes (map trim (split COMMA [])) o = false).
      { destruct (array_includes _ o) eqn:E; [|reflexivity].
        apply array_includes_In in E. simpl in E. destruct E as [<-|[]].
        now elim Hne. }
      rewrite E. reflexivity.
    + destruct (array_includes _ o) eqn:E.
      * apply array_includes_In in E. destruct E as [<-|[]]. tauto.
      * split; [discriminate|]. intros ->. vm_compute in E. discriminate E.
Qed.

Lemma origins_across_copies_witness :
  ServerJsSetup.cors_origin bare_settings (Some (u16 "http://localhost:3000"))
  = Deny (u16 "CORS")
  /\ (Part000Setup.cors_origin bare_settings (Some (u16 "http://localhost:3000"))
      = Allow
      <-> u16 "http://localhost:3000" = u16 "http://localhost:3000").
Proof.
  destruct (origins_across_copies bare_settings
              (Some (u16 "http://localhost:3000"))) as (_ & _ & H).
  apply (H eq_refl (u16 "http://localhost:3000") eq_refl). discriminate.
Defined.

(** X4.  In the first copy a refused Origin ends as the answer 403
    [Access denied.]: the message of the error the [origin] function
    raises holds [CORS], and the error handler answers such an error
    without logging it.  Whatever the error, the handler answers
    [success: false] with status 403 or 500 and sends no mail. *)
Theorem refused_origin_is_denied
    (st : Settings) (origin : option jsstring) (msg : jsstring) (w : World) :
  Part000Setup.cors_origin st origin = Deny msg ->
  Part000Setup.error_handler (VString msg) w
  = (respond 403 false (Some (u16 "Access denied.")), w)
  /\ (forall err : value,
        success (fst (Part000Setup.error_handler err w)) = false
        /\ (status (fst (Part000Setup.error_handler err w)) = 403
            \/ status (fst (Part000Setup.error_handler err w)) = 500)
        /\ outbox (snd (Part000Setup.error_handler err w)) = outbox w)
  /\ status (fst (Part000Setup.error_handler (VString msg) w)) = 403
  /\ message (fst (Part000Setup.error_handler (VString msg) w))
     = Some (u16 "Access denied.")
  /\ console (snd (Part000Setup.error_handler (VString msg) w)) = console w.
Proof.
  intros H.
  assert (E : Part000Setup.error_handler (VString msg) w
              = (respond 403 false (Some (u16 "Access denied.")), w)).
  { unfold Part000Setup.cors_origin in H.
    destruct (negb _); [discriminate H|].
    destruct (array_includes _ _); [discriminate H|].
    injection H as <-. reflexivity. }
  split; [exact E|]. split.
  - intros err. unfold Part000Setup.error_handler.
    destruct (truthy err && includes (String_ err) (u16 "CORS"));
      cbn; auto.
  - rewrite E. repeat split.
Qed.

Lemma refused_origin_is_denied_witness :
  Part000Setup.error_handler (VString (u16 "CORS policy: origin not allowed"))
    start
  = (respond 403 false (Some (u16 "Access denied.")), start)
  /\ (forall err : value,
        success (fst (Part000Setup.error_handler err start)) = false
        /\ (status (fst (Part000Setup.error_handler err start)) = 403
            \/ status (fst (Part000Setup.error_handler err start)) = 500)
        /\ outbox (snd (Part000Setup.error_handler err start)) = outbox start)
  /\ status (fst (Part000Setup.error_handler
                    (VString (u16 "CORS policy: origin not allowed")) start))
     = 403
  /\ message (fst (Part000Setup.error_handler
                     (VString (u16 "CORS policy: origin not allowed")) start))
     = Some (u16 "Access denied.")
  /\ console (snd (Part000Setup.error_handler
                     (VString (u16 "CORS policy: origin not allowed")) start))
     = console start.
Proof.
  apply (refused_origin_is_denied site_settings
           (Some (u16 "https://elsewhere.example"))).
  reflexivity.
Defined.

(* ================================================================= *)
(** ** The port and the TLS flag of the transport *)

Lemma number_or_nonzero (n : option Z) (d : Z) :
  d <> 0%Z -> number_or n d <> 0%Z.
Proof.
  intros Hd. unfold number_or. destruct n as [k|]; [|exact Hd].
  destruct (Z.eqb_spec k 0); assumption.
Qed.

Lemma secure_is_465 (st : Settings) :
  match SMTP_PORT st with Some s => eqs s (u16 "465") | None => false end
  = true ->
  SMTP_PORT st = Some (u16 "465").
Proof.
  destruct (SMTP_PORT st) as [s|]; [|discriminate].
  intros H. apply eqs_true in H. now subst.
Qed.

(** X5.  In [src/server.js] and in the first copy, [secure] is set only
    together with port 465, and the port is never 0: a variable that reads
    as zero falls back to the default like a missing one. *)
Theorem secure_only_on_465 (st : Settings) :
  (ServerJsSetup.secure st = true -> ServerJsSetup.port st = 465%Z)
  /\ ServerJsSetup.port st <> 0%Z
  /\ (Part000Setup.secure st = true -> Part000Setup.port st = 465%Z)
  /\ Part000Setup.port st <> 0%Z.
Proof.
  repeat split.
  - intros H. apply secure_is_465 in H.
    unfold ServerJsSetup.port. rewrite H. reflexivity.
  - apply number_or_nonzero. discriminate.
  - intros H. apply secure_is_465 in H.
    unfold Part000Setup.port. rewrite H. reflexivity.
  - apply number_or_nonzero. discriminate.
Qed.

Lemma secure_only_on_465_witness :
  ServerJsSetup.port site_settings = 465%Z
  /\ Part000Setup.port site_settings = 465%Z.
Proof.
  destruct (secure_only_on_465 site_settings) as (HS & _ & HP & _).
  split; [apply HS | apply HP]; reflexivity.
Defined.

(** X6.  When [SMTP_PORT] is missing, does not start with a number, or
    reads as zero, [src/server.js] connects to port 587 without [secure],
    and the first copy connects to port 465, also without [secure]. *)
Theorem port_defaults (st : Settings) :
  parseInt (read (SMTP_PORT st)) = None
  \/ parseInt (read (SMTP_PORT st)) = Some 0%Z ->
  (ServerJsSetup.port st = 587%Z /\ ServerJsSetup.secure st = false)
  /\ (Part000Setup.port st = 465%Z /\ Part000Setup.secure st = false).
Proof.
  intros H.
  assert (Hs : match SMTP_PORT st with
               | Some s => eqs s (u16 "465") | None => false end = false).
  { destruct (match SMTP_PORT st with Some s => _ | None => _ end) eqn:E;
      [|reflexivity].
    apply secure_is_465 in E. rewrite E in H.
    destruct H as [H|H]; vm_compute in H; discriminate H. }
  unfold ServerJsSetup.port, Part000Setup.port, ServerJsSetup.secure,
    Part000Setup.secure.
  rewrite Hs. destruct H as [-> | ->]; repeat split.
Qed.

Lemma port_defaults_witness :
  (ServerJsSetup.port bare_settings = 587%Z
   /\ ServerJsSetup.secure bare_settings = false)
  /\ (Part000Setup.port bare_settings = 465%Z
      /\ Part000Setup.secure bare_settings = false).
Proof.
  apply port_defaults. left. reflexivity.
Defined.

(* ================================================================= *)
(** ** More on [sanitize] *)

Lemma sanitize_clean (v : value) :
  (~ In LT (ServerJs.sanitize v) /\ ~ In GT (ServerJs.sanitize v))
  /\ (~ In LT (Part000.sanitize v) /\ ~ In GT (Part000.sanitize v)
      /\ ~ In DQUOTE (Part000.sanitize v) /\ ~ In SQUOTE (Part000.sanitize v)).
Proof.
  destruct (truthy v) eqn:T.
  - rewrite (sanitize_server_unfold v T), (sanitize_part_unfold v T).
    repeat split; intros H; apply In_firstn, In_trim in H; peel H;
      repeat match goal with E : ?a <> ?a |- _ => now apply E end.
  - destruct (sanitize_falsy v T) as [-> ->]. simpl. tauto.
Qed.

Lemma sanitize_length (v : value) :
  length (ServerJs.sanitize v) <= 500 /\ length (Part000.sanitize v) <= 500.
Proof.
  destruct (truthy v) eqn:T.
  - rewrite (sanitize_server_unfold v T), (sanitize_part_unfold v T).
    split; apply firstn_le_length.
  - destruct (sanitize_falsy v T) as [-> ->]. simpl. lia.
Qed.

Lemma edge_ok_prefix (a b : jsstring) :
  edge_ok (a ++ b) = true -> edge_ok a = true.
Proof. destruct a; [reflexivity | exact (fun H => H)]. Qed.

Lemma edge_ok_firstn (n : nat) (s : jsstring) :
  edge_ok s = true -> edge_ok (firstn n s) = true.
Proof.
  intros H. apply (edge_ok_prefix (firstn n s) (skipn n s)).
  now rewrite firstn_skipn.
Qed.

Lemma trimEnd_split (s : jsstring) : exists p, s = trimEnd s ++ p.
Proof.
  unfold trimEnd. destruct (trimStart_split (rev s)) as [p Hp].
  exists (rev p). rewrite <- rev_app_distr, <- Hp. symmetry.
  apply rev_involutive.
Qed.

Lemma trimEnd_length (s : jsstring) : length (trimEnd s) <= length s.
Proof.
  destruct (trimEnd_split s) as [p Hp]. rewrite Hp at 2.
  rewrite length_app. lia.
Qed.

Lemma In_trimEnd (x : codeunit) (s : jsstring) : In x (trimEnd s) -> In x s.
Proof.
  intros H. destruct (trimEnd_split s) as [p Hp]. rewrite Hp.
  apply in_or_app. now left.
Qed.

Lemma trimEnd_edge (s : jsstring) : edge_ok s = true -> edge_ok (trimEnd s) = true.
Proof.
  intros H. destruct (trimEnd_split s) as [p Hp]. rewrite Hp in H.
  exact (edge_ok_prefix _ _ H).
Qed.

Lemma trimEnd_trimEnd (s : jsstring) : trimEnd (trimEnd s) = trimEnd s.
Proof.
  unfold trimEnd. rewrite rev_involutive.
  now rewrite (trimStart_fixed _ (trimStart_edge (rev s))).
Qed.

(** On a string that holds none of the replaced characters, starts with no
    white space and fits in 500 code units, both helpers only trim the
    end. *)
Lemma sanitize_of_clean (s : jsstring) :
  ~ In LT s -> ~ In GT s -> edge_ok s = true -> length s <= 500 ->
  ServerJs.sanitize (VString s) = trimEnd s
  /\ (~ In DQUOTE s -> ~ In SQUOTE s ->
      Part000.sanitize (VString s) = trimEnd s).
Proof.
  intros Hlt Hgt He Hlen.
  assert (Hcut : firstn 500 (trim s) = trimEnd s).
  { unfold trim. rewrite (trimStart_fixed s He).
    apply firstn_all2. pose proof (trimEnd_length s). lia. }
  destruct (truthy (VString s)) eqn:T.
  - rewrite (sanitize_server_unfold _ T), (sanitize_part_unfold _ T).
    cbn [String_].
    rewrite (replace_g_absent LT _ _ Hlt), (replace_g_absent GT _ _ Hgt).
    split; [exact Hcut|]. intros Hdq Hsq.
    rewrite (replace_g_absent DQUOTE _ _ Hdq), (replace_g_absent SQUOTE _ _ Hsq).
    exact Hcut.
  - destruct (sanitize_falsy _ T) as [-> ->].
    simpl in T. destruct s; [split; reflexivity | discriminate].
Qed.

Lemma sanitize_edge (v : value) :
  edge_ok (ServerJs.sanitize v) = true /\ edge_ok (Part000.sanitize v) = true.
Proof.
  destruct (truthy v) eqn:T.
  - rewrite (sanitize_server_unfold v T), (sanitize_part_unfold v T).
    split; apply edge_ok_firstn, trim_trimmed.
  - destruct (sanitize_falsy v T) as [-> ->]. split; reflexivity.
Qed.

(** X7.  A second pass of [sanitize] only trims the end of what the first
    pass returned, and a third pass changes nothing: two passes reach a
    fixed point.  This holds for the helper of [src/server.js] (which the
    second copy repeats) and for the helper of the first copy. *)
Theorem sanitize_twice_is_fixed (v : value) :
  (ServerJs.sanitize (VString (ServerJs.sanitize v))
   = trimEnd (ServerJs.sanitize v)
   /\ ServerJs.sanitize (VString (ServerJs.sanitize (VString (ServerJs.sanitize v))))
      = ServerJs.sanitize (VString (ServerJs.sanitize v)))
  /\ (Part000.sanitize (VString (Part000.sanitize v))
      = trimEnd (Part000.sanitize v)
      /\ Part000.sanitize (VString (Part000.sanitize (VString (Part000.sanitize v))))
         = Part000.sanitize (VString (Part000.sanitize v))).
Proof.
  destruct (sanitize_clean v) as [[S1 S2] [P1 [P2 [P3 P4]]]].
  destruct (sanitize_length v) as [SL PL].
  destruct (sanitize_edge v) as [SE PE].
  split.
  - destruct (sanitize_of_clean (ServerJs.sanitize v) S1 S2 SE SL) as [E _].
    split; [exact E|]. rewrite E.
    destruct (sanitize_of_clean (trimEnd (ServerJs.sanitize v))) as [E2 _].
    + intros H. now apply In_trimEnd in H.
    + intros H. now apply In_trimEnd in H.
    + now apply trimEnd_edge.
    + pose proof (trimEnd_length (ServerJs.sanitize v)). lia.
    + rewrite E2. apply trimEnd_trimEnd.
  - destruct (sanitize_of_clean (Part000.sanitize v) P1 P2 PE PL) as [_ E].
    specialize (E P3 P4). split; [exact E|]. rewrite E.
    destruct (sanitize_of_clean (trimEnd (Part000.sanitize v))) as [_ E2].
    + intros H. now apply In_trimEnd in H.
    + intros H. now apply In_trimEnd in H.
    + now apply trimEnd_edge.
    + pose proof (trimEnd_length (Part000.sanitize v)). lia.
    + rewrite E2.
      * apply trimEnd_trimEnd.
      * intros H. now apply In_trimEnd in H.
      * intros H. now apply In_trimEnd in H.
Qed.

(** X8.  Below the cut [sanitize] is idempotent: when its result has fewer
    than 500 code units, a second pass returns the same string. *)
Theorem sanitize_idempotent_below_cut (v : value) :
  (length (ServerJs.sanitize v) < 500 ->
   ServerJs.sanitize (VString (ServerJs.sanitize v)) = ServerJs.sanitize v)
  /\ (length (Part000.sanitize v) < 500 ->
      Part000.sanitize (VString (Part000.sanitize v)) = Part000.sanitize v).
Proof.
  destruct (sanitize_clean v) as [[S1 S2] [P1 [P2 [P3 P4]]]].
  destruct (sanitize_length v) as [SL PL].
  destruct (sanitize_edge v) as [SE PE].
  assert (Hfix : forall t : jsstring,
             trimmed t -> length (firstn 500 t) < 500 ->
             trimEnd (firstn 500 t) = firstn 500 t).
  { intros t [T1 T2] Hl.
    assert (E : firstn 500 t = t).
    { apply firstn_all2. rewrite length_firstn in Hl. lia. }
    rewrite E. unfold trimEnd. rewrite (trimStart_fixed _ T2).
    apply rev_involutive. }
  split; intros Hl.
  - destruct (sanitize_of_clean (ServerJs.sanitize v) S1 S2 SE SL) as [E _].
    rewrite E. destruct (truthy v) eqn:T.
    + rewrite (sanitize_server_unfold v T) in *.
      apply Hfix; [apply trim_trimmed | exact Hl].
    + destruct (sanitize_falsy v T) as [-> _]. reflexivity.
  - destruct (sanitize_of_clean (Part000.sanitize v) P1 P2 PE PL) as [_ E].
    rewrite (E P3 P4). destruct (truthy v) eqn:T.
    + rewrite (sanitize_part_unfold v T) in *.
      apply Hfix; [apply trim_trimmed | exact Hl].
    + destruct (sanitize_falsy v T) as [_ ->]. reflexivity.
Qed.

Lemma sanitize_idempotent_below_cut_witness :
  ServerJs.sanitize (VString (ServerJs.sanitize (VString (u16 " <b>Bob</b> "))))
  = ServerJs.sanitize (VString (u16 " <b>Bob</b> "))
  /\ Part000.sanitize (VString (Part000.sanitize (VString (u16 " <b>Bob</b> "))))
     = Part000.sanitize (VString (u16 " <b>Bob</b> ")).
Proof.
  destruct (sanitize_idempotent_below_cut (VString (u16 " <b>Bob</b> ")))
    as [HS HP].
  split; [apply HS | apply HP]; vm_compute; lia.
Defined.

(** X9.  The result of [sanitize] never starts with white space (it may
    end with it, after a cut), and the result of the first copy's helper
    holds no double quote and no apostrophe. *)
Theorem sanitize_start_and_quotes (v : value) :
  edge_ok (ServerJs.sanitize v) = true
  /\ edge_ok (Part000.sanitize v) = true
  /\ ~ In DQUOTE (Part000.sanitize v)
  /\ ~ In SQUOTE (Part000.sanitize v).
Proof.
  destruct (sanitize_edge v) as [SE PE].
  destruct (sanitize_clean v) as [_ [_ [_ [P3 P4]]]].
  auto.
Qed.

(* ================================================================= *)
(** ** Every handler, every request *)

Lemma orderly_rejected (transporter : Mail -> Settled) (w : World)
    (msg : option jsstring) :
  orderly transporter w (respond 400 false msg, w).
Proof.
  exists [], []. cbn. rewrite !app_nil_r.
  repeat split; auto; try discriminate.
  intros (m & E & _). discriminate E.
Qed.

Lemma orderly_sent (transporter : Mail -> Settled) (w : World) (m : Mail)
    (r : Response * World) :
  (transporter m = Resolved -> status (fst r) = 200 /\ success (fst r) = true) ->
  (forall err, transporter m = Rejected err ->
               status (fst r) = 500 /\ success (fst r) = false) ->
  outbox (snd r) = outbox w ++ [m] ->
  (exists logged, console (snd r) = console w ++ logged) ->
  orderly transporter w r.
Proof.
  intros Hok Hbad Hout [logged Hlog]. exists [m], logged.
  split; [exact Hout|]. split; [exact Hlog|]. split; [simpl; lia|].
  destruct (transporter m) as [|err] eqn:E.
  - destruct (Hok eq_refl) as [H1 H2]. rewrite H1, H2.
    repeat split; auto; try discriminate. intros _. exists m. auto.
  - destruct (Hbad err eq_refl) as [H1 H2]. rewrite H1, H2.
    repeat split; auto; try discriminate.
    intros (m' & Em & Hm). injection Em as <-. congruence.
Qed.

Ltac orderly_after_send m :=
  apply (orderly_sent _ _ m);
  [ intros E; rewrite E; split; reflexivity
  | intros e E; rewrite E; split; reflexivity
  | destruct (_ m); reflexivity
  | destruct (_ m);
    first [ eexists; reflexivity | exists []; symmetry; apply app_nil_r ] ].

Ltac run_copy2 H :=
  cbv beta delta [Part000Copy2.post_api_booking Part000Copy2.post_api_contact];
  rewrite H; cbv beta iota zeta delta [negb bind sendMail json ret log];
  try reflexivity.

Section Copy2Runs.

Variable deps : Deps.
Variable env : Env.
Variable transporter : Mail -> Settled.
Variable w : World.

Lemma copy2_booking_rejected (req : Booking.Form) :
  Part000Copy2.booking_validationResult deps req <> 0 ->
  Part000Copy2.post_api_booking deps env transporter req w
  = (respond 400 false (Some (u16 "Invalid data.")), w).
Proof. intros H. apply Nat.eqb_neq in H. run_copy2 H. Qed.

Lemma copy2_booking_settled (req : Booking.Form) :
  Part000Copy2.booking_validationResult deps req = 0 ->
  Part000Copy2.post_api_booking deps env transporter req w
  = match transporter (Part000Copy2.booking_mailOptions deps env req) with
    | Resolved =>
        (respond 200 true None,
         {| outbox := outbox w ++ [Part000Copy2.booking_mailOptions deps env req];
            console := console w ++ [] |})
    | Rejected err =>
        (respond 500 false (Some (u16 "Failed to send.")),
         {| outbox := outbox w ++ [Part000Copy2.booking_mailOptions deps env req];
            console := console w
              ++ [console_error [CROSS_MARK ++ u16 " Booking failed:"; err]] |})
    end.
Proof.
  intros H. apply Nat.eqb_eq in H. run_copy2 H.
  destruct (transporter _); [rewrite app_nil_r|]; reflexivity.
Qed.

Lemma copy2_contact_rejected (req : Contact.Form) :
  Part000Copy2.contact_validationResult deps req <> 0 ->
  Part000Copy2.post_api_contact deps env transporter req w
  = (respond 400 false (Some (u16 "Invalid data.")), w).
Proof. intros H. apply Nat.eqb_neq in H. run_copy2 H. Qed.

Lemma copy2_contact_settled (req : Contact.Form) :
  Part000Copy2.contact_validationResult deps req = 0 ->
  Part000Copy2.post_api_contact deps env transporter req w
  = match transporter (Part000Copy2.contact_mailOptions deps env req) with
    | Resolved =>
        (respond 200 true None,
         {| outbox := outbox w ++ [Part000Copy2.contact_mailOptions deps env req];
            console := console w ++ [] |})
    | Rejected err =>
        (respond 500 false (Some (u16 "Failed to send.")),
         {| outbox := outbox w ++ [Part000Copy2.contact_mailOptions deps env req];
            console := console w
              ++ [console_error [CROSS_MARK ++ u16 " Contact failed:"; err]] |})
    end.
Proof.
  intros H. apply Nat.eqb_eq in H. run_copy2 H.
  destruct (transporter _); [rewrite app_nil_r|]; reflexivity.
Qed.

(** X10.  Whatever the request, the world it starts in and the transport,
    each of the six handlers adds at most one message to the outbox and
    keeps the earlier ones, sends nothing exactly when it answers 400, and
    answers [success: true] exactly when the message it sent was accepted
    by the transport. *)
Theorem handlers_orderly (booking : Booking.Form) (contact : Contact.Form) :
  orderly transporter w (ServerJs.post_api_booking deps env transporter booking w)
  /\ orderly transporter w
       (ServerJs.post_api_contact deps env transporter contact w)
  /\ orderly transporter w
       (Part000.post_api_booking deps env transporter booking w)
  /\ orderly transporter w
       (Part000.post_api_contact deps env transporter contact w)
  /\ orderly transporter w
       (Part000Copy2.post_api_booking deps env transporter booking w)
  /\ orderly transporter w
       (Part000Copy2.post_api_contact deps env transporter contact w).
Proof.
  repeat split.
  - destruct (Nat.eq_dec (ServerJs.booking_validationResult deps booking) 0)
      as [H|H].
    + rewrite (server_booking_settled deps env transporter w booking H).
      cbv zeta.
      orderly_after_send (ServerJs.booking_mailOptions deps env booking).
    + rewrite (server_booking_rejected deps env transporter w booking H).
      apply orderly_rejected.
  - destruct (Nat.eq_dec (ServerJs.contact_validationResult deps contact) 0)
      as [H|H].
    + rewrite (server_contact_settled deps env transporter w contact H).
      cbv zeta.
      orderly_after_send (ServerJs.contact_mailOptions deps env contact).
    + rewrite (server_contact_rejected deps env transporter w contact H).
      apply orderly_rejected.
  - destruct (Nat.eq_dec (Part000.booking_validationResult deps booking) 0)
      as [H|H].
    + rewrite (part_booking_settled deps env transporter w booking H).
      cbv zeta.
      orderly_after_send (Part000.booking_mailOptions deps env booking).
    + rewrite (part_booking_rejected deps env transporter w booking H).
      apply orderly_rejected.
  - destruct (Nat.eq_dec (Part000.contact_validationResult deps contact) 0)
      as [H|H].
    + rewrite (part_contact_settled deps env transporter w contact H).
      cbv zeta.
      orderly_after_send (Part000.contact_mailOptions deps env contact).
    + rewrite (part_contact_rejected deps env transporter w contact H).
      apply orderly_rejected.
  - destruct (Nat.eq_dec (Part000Copy2.booking_validationResult deps booking) 0)
      as [H|H].
    + rewrite (copy2_booking_settled booking H).
      orderly_after_send (Part000Copy2.booking_mailOptions deps env booking).
    + rewrite (copy2_booking_rejected booking H). apply orderly_rejected.
  - destruct (Nat.eq_dec (Part000Copy2.contact_validationResult deps contact) 0)
      as [H|H].
    + rewrite (copy2_contact_settled contact H).
      orderly_after_send (Part000Copy2.contact_mailOptions deps env contact).
    + rewrite (copy2_contact_rejected contact H). apply orderly_rejected.
Qed.

End Copy2Runs.

(* ================================================================= *)
(** ** When a submission is refused *)

Lemma copy2_validation (deps : Deps) :
  (forall req, Part000Copy2.booking_validationResult deps req
               = ServerJs.booking_validationResult deps req)
  /\ (forall req, Part000Copy2.contact_validationResult deps req
                  = ServerJs.contact_validationResult deps req).
Proof. split; reflexivity. Qed.

Lemma not_true_false (b : bool) : b <> true <-> b = false.
Proof. destruct b; split; congruence. Qed.

(** What a chain does to a field that arrives as an array: each check
    runs once for every element, so on the empty array no check runs and
    no error is recorded, whatever the chain. *)
Remark body_array_nil (c : chain) : body_array c [] = ([], 0).
Proof.
  induction c as [|[f|p] c IH]; cbn [body_array map filter length];
    [reflexivity | exact IH | rewrite IH; reflexivity].
Qed.

(** On an array of one element a chain does what it does to the element
    alone. *)
Remark body_array_one (c : chain) (v : value) :
  body_array c [v] = ([fst (body c v)], snd (body c v)).
Proof.
  revert v. induction c as [|[f|p] c IH]; intros v.
  - reflexivity.
  - cbn [body_array body map]. apply IH.
  - cbn [body_array body filter fst snd]. rewrite IH. cbn [fst snd].
    destruct (p (toString v)); reflexivity.
Qed.

(** X11.  For a booking whose fields are not arrays, the handler answers
    400 exactly when a check of its chains fails.  In [src/server.js] the
    checks are: first name and last name not empty once trimmed, [isEmail]
    on the address, date not empty and [isISO8601], time not empty as
    submitted.  The first copy adds the three length bounds, on the
    characters that [isLength] counts. *)
Theorem booking_refused_exactly_when
    (deps : Deps) (env : Env) (transporter : Mail -> Settled)
    (req : Booking.Form) (w : World) :
  (status (fst (ServerJs.post_api_booking deps env transporter req w)) = 400
   <->
   negb (isEmpty (validator_trim (toString (Booking.firstName req))))
   && negb (isEmpty (validator_trim (toString (Booking.lastName req))))
   && isEmail deps (toString (Booking.email req))
   && negb (isEmpty (toString (Booking.date req)))
   && isISO8601 deps (toString (Booking.date req))
   && negb (isEmpty (toString (Booking.time req))) = false)
  /\
  (counts_as_validator deps ->
   (status (fst (Part000.post_api_booking deps env transporter req w)) = 400
    <->
    negb (isEmpty (validator_trim (toString (Booking.firstName req))))
    && Nat.leb
         (isLength_len (validator_trim (toString (Booking.firstName req)))) 50
    && negb (isEmpty (validator_trim (toString (Booking.lastName req))))
    && Nat.leb
         (isLength_len (validator_trim (toString (Booking.lastName req)))) 50
    && isEmail deps (toString (Booking.email req))
    && negb (isEmpty (toString (Booking.date req)))
    && isISO8601 deps (toString (Booking.date req))
    && negb (isEmpty (toString (Booking.time req)))
    && Nat.leb (isLength_len (validator_trim (toString (Booking.time req)))) 20
    = false)).
Proof.
  split.
  - rewrite <- not_true_false, <- server_booking_valid.
    destruct (Nat.eq_dec (ServerJs.booking_validationResult deps req) 0)
      as [H|H].
    + rewrite (server_booking_settled deps env transporter w req H).
      cbv zeta. destruct (transporter _); cbn; split; intros; try discriminate;
        contradiction.
    + rewrite (server_booking_rejected deps env transporter w req H).
      cbn. tauto.
  - intros Hc. rewrite <- !(isLength_upto deps _ _ Hc).
    rewrite <- not_true_false, <- part_booking_valid.
    destruct (Nat.eq_dec (Part000.booking_validationResult deps req) 0)
      as [H|H].
    + rewrite (part_booking_settled deps env transporter w req H).
      cbv zeta. destruct (transporter _); cbn; split; intros; try discriminate;
        contradiction.
    + rewrite (part_booking_rejected deps env transporter w req H).
      cbn. tauto.
Qed.

Lemma booking_refused_exactly_when_witness :
  status (fst (Part000.post_api_booking sample sample_env delivers
                 long_name_booking start)) = 400
  /\ status (fst (ServerJs.post_api_booking sample sample_env delivers
                    long_name_booking start)) <> 400.
Proof.
  destruct (booking_refused_exactly_when sample sample_env delivers
              long_name_booking start) as [HS HP].
  split.
  - apply (HP sample_counts_as_validator). vm_compute. reflexivity.
  - intros H. apply HS in H. vm_compute in H. discriminate H.
Defined.

(** X12.  For a contact submission whose fields are not arrays, the
    handler answers 400 exactly when a check of its chains fails: name not
    empty once trimmed, [isEmail] on the address, message not empty once
    trimmed and of 10 to 2000 characters as [isLength] counts them; the
    first copy also bounds the trimmed name by 100 such characters. *)
Theorem contact_refused_exactly_when
    (deps : Deps) (env : Env) (transporter : Mail -> Settled)
    (req : Contact.Form) (w : World) :
  counts_as_validator deps ->
  (status (fst (ServerJs.post_api_contact deps env transporter req w)) = 400
   <->
   negb (isEmpty (validator_trim (toString (Contact.name req))))
   && isEmail deps (toString (Contact.email req))
   && negb (isEmpty (validator_trim (toString (Contact.message req))))
   && (Nat.leb 10
         (isLength_len (validator_trim (toString (Contact.message req))))
       && Nat.leb
            (isLength_len (validator_trim (toString (Contact.message req))))
            2000) = false)
  /\
  (status (fst (Part000.post_api_contact deps env transporter req w)) = 400
   <->
   negb (isEmpty (validator_trim (toString (Contact.name req))))
   && Nat.leb (isLength_len (validator_trim (toString (Contact.name req)))) 100
   && isEmail deps (toString (Contact.email req))
   && negb (isEmpty (validator_trim (toString (Contact.message req))))
   && (Nat.leb 10
         (isLength_len (validator_trim (toString (Contact.message req))))
       && Nat.leb
            (isLength_len (validator_trim (toString (Contact.message req))))
            2000) = false).
Proof.
  intros Hc.
  rewrite <- !(isLength_as_validator deps 10 2000 _ Hc).
  rewrite <- !(isLength_upto deps _ _ Hc).
  split.
  - rewrite <- not_true_false, <- server_contact_valid.
    destruct (Nat.eq_dec (ServerJs.contact_validationResult deps req) 0)
      as [H|H].
    + rewrite (server_contact_settled deps env transporter w req H).
      cbv zeta. destruct (transporter _); cbn; split; intros; try discriminate;
        contradiction.
    + rewrite (server_contact_rejected deps env transporter w req H).
      cbn. tauto.
  - rewrite <- not_true_false, <- part_contact_valid.
    destruct (Nat.eq_dec (Part000.contact_validationResult deps req) 0)
      as [H|H].
    + rewrite (part_contact_settled deps env transporter w req H).
      cbv zeta. destruct (transporter _); cbn; split; intros; try discriminate;
        contradiction.
    + rewrite (part_contact_rejected deps env transporter w req H).
      cbn. tauto.
Qed.

Lemma contact_refused_exactly_when_witness :
  status (fst (ServerJs.post_api_contact sample sample_env delivers
                 short_contact start)) = 400
  /\ status (fst (Part000.post_api_contact sample sample_env delivers
                    faces_contact start)) <> 400.
Proof.
  split.
  - apply (contact_refused_exactly_when sample sample_env delivers
             short_contact start sample_counts_as_validator).
    vm_compute. reflexivity.
  - intros H.
    apply (contact_refused_exactly_when sample sample_env delivers
             faces_contact start sample_counts_as_validator) in H.
    vm_compute in H. discriminate H.
Defined.

Lemma nullish_toString (v : value) : nullish v -> toString v = [].
Proof. intros [-> | ->]; reflexivity. Qed.

Ltac checks_of H :=
  repeat (apply andb_true_iff in H;
          let H' := fresh "Hc" in destruct H as [H H']).

(** X13.  A booking in which a field is absent or [null] is answered with
    the 400 response and nothing is sent, in all three copies; so is a
    contact submission.  For the address this relies on [isEmail]
    refusing the empty string. *)
Theorem absent_field_refused
    (deps : Deps) (env : Env) (transporter : Mail -> Settled) (w : World) :
  isEmail deps [] = false ->
  (forall req : Booking.Form,
     nullish (Booking.firstName req) \/ nullish (Booking.lastName req)
     \/ nullish (Booking.email req) \/ nullish (Booking.date req)
     \/ nullish (Booking.time req) ->
     ServerJs.post_api_booking deps env transporter req w
     = (respond 400 false (Some (u16 "Invalid data.")), w)
     /\ Part000.post_api_booking deps env transporter req w
        = (respond 400 false
             (Some (u16 "Invalid form data. Please check all fields.")), w)
     /\ Part000Copy2.post_api_booking deps env transporter req w
        = (respond 400 false (Some (u16 "Invalid data.")), w)
     /\ status (fst (ServerJs.post_api_booking deps env transporter req w))
        = 400
     /\ success (fst (ServerJs.post_api_booking deps env transporter req w))
        = false
     /\ status (fst (Part000.post_api_booking deps env transporter req w))
        = 400
     /\ success (fst (Part000.post_api_booking deps env transporter req w))
        = false
     /\ status (fst (Part000Copy2.post_api_booking deps env transporter req w))
        = 400
     /\ success (fst (Part000Copy2.post_api_booking deps env transporter req w))
        = false)
  /\
  (forall req : Contact.Form,
     nullish (Contact.name req) \/ nullish (Contact.email req)
     \/ nullish (Contact.message req) ->
     ServerJs.post_api_contact deps env transporter req w
     = (respond 400 false (Some (u16 "Invalid data.")), w)
     /\ Part000.post_api_contact deps env transporter req w
        = (respond 400 false
             (Some (u16 "Invalid form data. Please check all fields.")), w)
     /\ Part000Copy2.post_api_contact deps env transporter req w
        = (respond 400 false (Some (u16 "Invalid data.")), w)
     /\ status (fst (ServerJs.post_api_contact deps env transporter req w))
        = 400
     /\ success (fst (ServerJs.post_api_contact deps env transporter req w))
        = false
     /\ status (fst (Part000.post_api_contact deps env transporter req w))
        = 400
     /\ success (fst (Part000.post_api_contact deps env transporter req w))
        = false
     /\ status (fst (Part000Copy2.post_api_contact deps env transporter req w))
        = 400
     /\ success (fst (Part000Copy2.post_api_contact deps env transporter req w))
        = false).
Proof.
  intros Hmail. split; intros req Hn.
  - assert (HS : ServerJs.booking_validationResult deps req <> 0).
    { intros H. apply server_booking_valid in H. checks_of H.
      destruct Hn as [Hn|[Hn|[Hn|[Hn|Hn]]]];
        apply nullish_toString in Hn; rewrite Hn in *;
        try discriminate; congruence. }
    assert (HP : Part000.booking_validationResult deps req <> 0).
    { intros H. apply part_booking_valid in H. checks_of H.
      destruct Hn as [Hn|[Hn|[Hn|[Hn|Hn]]]];
        apply nullish_toString in Hn; rewrite Hn in *;
        try discriminate; congruence. }
    rewrite (server_booking_rejected deps env transporter w req HS).
    rewrite (part_booking_rejected deps env transporter w req HP).
    rewrite (copy2_booking_rejected deps env transporter w req HS).
    repeat split.
  - assert (HS : ServerJs.contact_validationResult deps req <> 0).
    { intros H. apply server_contact_valid in H. checks_of H.
      destruct Hn as [Hn|[Hn|Hn]];
        apply nullish_toString in Hn; rewrite Hn in *;
        try discriminate; congruence. }
    assert (HP : Part000.contact_validationResult deps req <> 0).
    { intros H. apply part_contact_valid in H. checks_of H.
      destruct Hn as [Hn|[Hn|Hn]];
        apply nullish_toString in Hn; rewrite Hn in *;
        try discriminate; congruence. }
    rewrite (server_contact_rejected deps env transporter w req HS).
    rewrite (part_contact_rejected deps env transporter w req HP).
    rewrite (copy2_contact_rejected deps env transporter w req HS).
    repeat split.
Qed.

Lemma absent_field_refused_witness :
  (ServerJs.post_api_booking sample sample_env delivers
     {| Booking.firstName := VString (u16 "Bob");
        Booking.lastName := VString (u16 "Stone");
        Booking.email := VString (u16 "bob@example.com");
        Booking.date := VUndefined;
        Booking.time := VString (u16 "10:30") |} start
   = (respond 400 false (Some (u16 "Invalid data.")), start)
   /\ status (fst (ServerJs.post_api_booking sample sample_env delivers
                     {| Booking.firstName := VString (u16 "Bob");
                        Booking.lastName := VString (u16 "Stone");
                        Booking.email := VString (u16 "bob@example.com");
                        Booking.date := VUndefined;
                        Booking.time := VString (u16 "10:30") |} start)) = 400)
  /\ (Part000.post_api_contact sample sample_env delivers
        {| Contact.name := VString (u16 "Bob");
           Contact.email := VNull;
           Contact.message := VString (u16 "Hello there, need help") |} start
      = (respond 400 false
           (Some (u16 "Invalid form data. Please check all fields.")), start)
      /\ success (fst (Part000.post_api_contact sample sample_env delivers
                         {| Contact.name := VString (u16 "Bob");
                            Contact.email := VNull;
                            Contact.message :=
                              VString (u16 "Hello there, need help") |}
                         start)) = false).
Proof.
  destruct (absent_field_refused sample sample_env delivers start eq_refl)
    as [HB HC].
  split.
  - split; apply HB; right; right; right; left; left; reflexivity.
  - split; apply HC; right; left; right; reflexivity.
Defined.

(* ================================================================= *)
(** ** The second copy beside [src/server.js] *)

(** X14.  The second copy of [src/unnamed/part_000] behaves as
    [src/server.js] up to the HTML body: its [sanitize] is the same
    function, its messages have the same sender, recipient, reply-to and
    subject, and when the transport settles both messages alike, the
    answer, the console and the headers of the outbox are the same. *)
Theorem second_copy_follows_server
    (deps : Deps) (env : Env) (transporter : Mail -> Settled) (w : World) :
  (forall v : value, Part000Copy2.sanitize v = ServerJs.sanitize v)
  /\ (forall req : Booking.Form,
        headers (Part000Copy2.booking_mailOptions deps env req)
        = headers (ServerJs.booking_mailOptions deps env req)
        /\ (transporter (Part000Copy2.booking_mailOptions deps env req)
            = transporter (ServerJs.booking_mailOptions deps env req) ->
            fst (Part000Copy2.post_api_booking deps env transporter req w)
            = fst (ServerJs.post_api_booking deps env transporter req w)
            /\ console (snd (Part000Copy2.post_api_booking deps env
                               transporter req w))
               = console (snd (ServerJs.post_api_booking deps env
                                 transporter req w))
            /\ map headers
                 (outbox (snd (Part000Copy2.post_api_booking deps env
                                 transporter req w)))
               = map headers
                   (outbox (snd (ServerJs.post_api_booking deps env
                                   transporter req w)))))
  /\ (forall req : Contact.Form,
        headers (Part000Copy2.contact_mailOptions deps env req)
        = headers (ServerJs.contact_mailOptions deps env req)
        /\ (transporter (Part000Copy2.contact_mailOptions deps env req)
            = transporter (ServerJs.contact_mailOptions deps env req) ->
            fst (Part000Copy2.post_api_contact deps env transporter req w)
            = fst (ServerJs.post_api_contact deps env transporter req w)
            /\ console (snd (Part000Copy2.post_api_contact deps env
                               transporter req w))
               = console (snd (ServerJs.post_api_contact deps env
                                 transporter req w))
            /\ map headers
                 (outbox (snd (Part000Copy2.post_api_contact deps env
                                 transporter req w)))
               = map headers
                   (outbox (snd (ServerJs.post_api_contact deps env
                                   transporter req w))))).
Proof.
  split; [reflexivity|]. split; intros req; (split; [reflexivity|]); intros Ht.
  - destruct (Nat.eq_dec (ServerJs.booking_validationResult deps req) 0)
      as [H|H].
    + rewrite (copy2_booking_settled deps env transporter w req H),
        (server_booking_settled deps env transporter w req H).
      cbv zeta. rewrite Ht. clear Ht.
      destruct (transporter (ServerJs.booking_mailOptions deps env req));
        cbn [fst snd console outbox];
        rewrite ?app_nil_r, ?map_app; repeat split; reflexivity.
    + rewrite (copy2_booking_rejected deps env transporter w req H),
        (server_booking_rejected deps env transporter w req H). auto.
  - destruct (Nat.eq_dec (ServerJs.contact_validationResult deps req) 0)
      as [H|H].
    + rewrite (copy2_contact_settled deps env transporter w req H),
        (server_contact_settled deps env transporter w req H).
      cbv zeta. rewrite Ht. clear Ht.
      destruct (transporter (ServerJs.contact_mailOptions deps env req));
        cbn [fst snd console outbox];
        rewrite ?app_nil_r, ?map_app; repeat split; reflexivity.
    + rewrite (copy2_contact_rejected deps env transporter w req H),
        (server_contact_rejected deps env transporter w req H). auto.
Qed.

Lemma second_copy_follows_server_witness :
  fst (Part000Copy2.post_api_booking sample sample_env delivers bob_booking start)
  = fst (ServerJs.post_api_booking sample sample_env delivers bob_booking start)
  /\ console (snd (Part000Copy2.post_api_booking sample sample_env delivers
                     bob_booking start))
     = console (snd (ServerJs.post_api_booking sample sample_env delivers
                       bob_booking start))
  /\ map headers
       (outbox (snd (Part000Copy2.post_api_booking sample sample_env delivers
                       bob_booking start)))
     = map headers
         (outbox (snd (ServerJs.post_api_booking sample sample_env delivers
                         bob_booking start))).
Proof.
  destruct (second_copy_follows_server sample sample_env delivers start)
    as (_ & HB & _).
  destruct (HB bob_booking) as [_ H]. apply H. reflexivity.
Defined.

(* ================================================================= *)
(** ** The markup and the size of a message *)

Lemma occurrences_app (c : codeunit) (a b : jsstring) :
  occurrences c (a ++ b) = occurrences c a + occurrences c b.
Proof. apply count_occ_app. Qed.

Lemma occurrences_nil (c : codeunit) : occurrences c [] = 0.
Proof. reflexivity. Qed.

Lemma occurrences_absent (c : codeunit) (s : jsstring) :
  ~ In c s -> occurrences c s = 0.
Proof. apply count_occ_not_In. Qed.

(** The fragments of a template are set aside as unknowns before
    counting. *)
Ltac set_fragments_aside :=
  repeat match goal with
         | |- context [tpl ?s] =>
             let x := fresh "fragment" in generalize (tpl s); intros x
         end;
  generalize LIGHT_BULB; intros ?.

Ltac count_holes :=
  set_fragments_aside;
  rewrite !occurrences_app; cbn [occurrences count_occ]; lia.

Lemma server_contact_html_count (c : codeunit) (n e m : jsstring) :
  occurrences c (ServerJs.contact_html n e m)
  = occurrences c (ServerJs.contact_html [] [] [])
    + occurrences c n + occurrences c e + occurrences c m.
Proof. unfold ServerJs.contact_html. count_holes. Qed.

Lemma server_booking_html_count (c : codeunit) (f l e d t : jsstring) :
  occurrences c (ServerJs.booking_html f l e d t)
  = occurrences c (ServerJs.booking_html [] [] [] [] [])
    + occurrences c f + occurrences c l + occurrences c e
    + occurrences c d + occurrences c t.
Proof. unfold ServerJs.booking_html. count_holes. Qed.

Lemma part_contact_html_count (c : codeunit) (n e m : jsstring) :
  occurrences c (Part000.contact_html n e m)
  = occurrences c (Part000.contact_html [] [] [])
    + 2 * occurrences c n + occurrences c e + occurrences c m.
Proof. unfold Part000.contact_html. count_holes. Qed.

Lemma part_booking_html_count (c : codeunit) (f l e d t : jsstring) :
  occurrences c (Part000.booking_html f l e d t)
  = occurrences c (Part000.booking_html [] [] [] [] [])
    + 2 * occurrences c f + occurrences c l + occurrences c e
    + occurrences c d + occurrences c t.
Proof. unfold Part000.booking_html. count_holes. Qed.

Lemma sanitize_counts (v : value) :
  (occurrences LT (ServerJs.sanitize v) = 0
   /\ occurrences GT (ServerJs.sanitize v) = 0)
  /\ (occurrences LT (Part000.sanitize v) = 0
      /\ occurrences GT (Part000.sanitize v) = 0
      /\ occurrences DQUOTE (Part000.sanitize v) = 0
      /\ occurrences SQUOTE (Part000.sanitize v) = 0).
Proof.
  destruct (sanitize_clean v) as [[S1 S2] [P1 [P2 [P3 P4]]]].
  repeat split; now apply occurrences_absent.
Qed.

(** X15.  In [src/server.js] no submitted field adds a [<] or a [>] to
    the HTML body: the contact body holds the 22 of each that its
    template has, and the booking body the 26 of its template and those
    of the date as the runtime formats it. *)
Theorem server_body_markup_fixed (deps : Deps) (env : Env) :
  (forall req : Contact.Form,
     occurrences LT (html (ServerJs.contact_mailOptions deps env req)) = 22
     /\ occurrences GT (html (ServerJs.contact_mailOptions deps env req)) = 22)
  /\ (forall req : Booking.Form,
        occurrences LT (html (ServerJs.booking_mailOptions deps env req))
        = 26 + occurrences LT
                 (toLocaleDateString deps
                    (new_Date (fst (ServerJs.booking_date deps req))))
        /\ occurrences GT (html (ServerJs.booking_mailOptions deps env req))
           = 26 + occurrences GT
                    (toLocaleDateString deps
                       (new_Date (fst (ServerJs.booking_date deps req))))).
Proof.
  assert (C : occurrences LT (ServerJs.contact_html [] [] []) = 22
              /\ occurrences GT (ServerJs.contact_html [] [] []) = 22
              /\ occurrences LT (ServerJs.booking_html [] [] [] [] []) = 26
              /\ occurrences GT (ServerJs.booking_html [] [] [] [] []) = 26)
    by (repeat split; vm_compute; reflexivity).
  destruct C as (C1 & C2 & C3 & C4).
  split; intros req; unfold ServerJs.contact_mailOptions,
    ServerJs.booking_mailOptions; cbn [html].
  - split; rewrite server_contact_html_count, ?C1, ?C2.
    + rewrite !(proj1 (proj1 (sanitize_counts _))). lia.
    + rewrite !(proj2 (proj1 (sanitize_counts _))). lia.
  - split; rewrite server_booking_html_count, ?C3, ?C4.
    + rewrite !(proj1 (proj1 (sanitize_counts _))). lia.
    + rewrite !(proj2 (proj1 (sanitize_counts _))). lia.
Qed.

(** X16.  In the first copy no submitted field adds a [<], a [>], a
    double quote or an apostrophe to the HTML body: each body holds those
    of its template, and the booking body also those of the date as the
    runtime formats it. *)
Theorem part_body_markup_fixed (deps : Deps) (env : Env) :
  (forall req : Contact.Form,
     occurrences LT (html (Part000.contact_mailOptions deps env req)) = 44
     /\ occurrences GT (html (Part000.contact_mailOptions deps env req)) = 44
     /\ occurrences DQUOTE (html (Part000.contact_mailOptions deps env req)) = 32
     /\ occurrences SQUOTE (html (Part000.contact_mailOptions deps env req)) = 0)
  /\ (forall req : Booking.Form,
        let date :=
          toLocaleDateString_enUS deps
            (new_Date (fst (Part000.booking_date deps req))) in
        occurrences LT (html (Part000.booking_mailOptions deps env req))
        = 52 + occurrences LT date
        /\ occurrences GT (html (Part000.booking_mailOptions deps env req))
           = 52 + occurrences GT date
        /\ occurrences DQUOTE (html (Part000.booking_mailOptions deps env req))
           = 34 + occurrences DQUOTE date
        /\ occurrences SQUOTE (html (Part000.booking_mailOptions deps env req))
           = occurrences SQUOTE date).
Proof.
  assert (C : (occurrences LT (Part000.contact_html [] [] []) = 44
               /\ occurrences GT (Part000.contact_html [] [] []) = 44
               /\ occurrences DQUOTE (Part000.contact_html [] [] []) = 32
               /\ occurrences SQUOTE (Part000.contact_html [] [] []) = 0)
              /\ (occurrences LT (Part000.booking_html [] [] [] [] []) = 52
                  /\ occurrences GT (Part000.booking_html [] [] [] [] []) = 52
                  /\ occurrences DQUOTE (Part000.booking_html [] [] [] [] []) = 34
                  /\ occurrences SQUOTE (Part000.booking_html [] [] [] [] []) = 0))
    by (repeat split; vm_compute; reflexivity).
  destruct C as [(C1 & C2 & C3 & C4) (B1 & B2 & B3 & B4)].
  split; intros req; cbv zeta; unfold Part000.contact_mailOptions,
    Part000.booking_mailOptions; cbn [html].
  - repeat split; rewrite part_contact_html_count, ?C1, ?C2, ?C3, ?C4.
    + rewrite !(proj1 (proj2 (sanitize_counts _))). lia.
    + rewrite !(proj1 (proj2 (proj2 (sanitize_counts _)))). lia.
    + rewrite !(proj1 (proj2 (proj2 (proj2 (sanitize_counts _))))). lia.
    + rewrite !(proj2 (proj2 (proj2 (proj2 (sanitize_counts _))))). lia.
  - repeat split; rewrite part_booking_html_count, ?B1, ?B2, ?B3, ?B4.
    + rewrite !(proj1 (proj2 (sanitize_counts _))). lia.
    + rewrite !(proj1 (proj2 (proj2 (sanitize_counts _)))). lia.
    + rewrite !(proj1 (proj2 (proj2 (proj2 (sanitize_counts _))))). lia.
    + rewrite !(proj2 (proj2 (proj2 (proj2 (sanitize_counts _))))). lia.
Qed.

Ltac measure_holes :=
  set_fragments_aside;
  repeat (rewrite length_app || cbn [length app]); lia.

Lemma server_contact_html_length (n e m : jsstring) :
  length (ServerJs.contact_html n e m)
  = length (ServerJs.contact_html [] [] []) + length n + length e + length m.
Proof. unfold ServerJs.contact_html. measure_holes. Qed.

Lemma server_booking_html_length (f l e d t : jsstring) :
  length (ServerJs.booking_html f l e d t)
  = length (ServerJs.booking_html [] [] [] [] [])
    + length f + length l + length e + length d + length t.
Proof. unfold ServerJs.booking_html. measure_holes. Qed.

Lemma part_contact_html_length (n e m : jsstring) :
  length (Part000.contact_html n e m)
  = length (Part000.contact_html [] [] [])
    + 2 * length n + length e + length m.
Proof. unfold Part000.contact_html. measure_holes. Qed.

Lemma part_booking_html_length (f l e d t : jsstring) :
  length (Part000.booking_html f l e d t)
  = length (Part000.booking_html [] [] [] [] [])
    + 2 * length f + length l + length e + length d + length t.
Proof. unfold Part000.booking_html. measure_holes. Qed.

Lemma subject_lengths (a b : jsstring) :
  length (ServerJs.contact_subject a) = 20 + length a
  /\ length (Part000.contact_subject a) = 20 + length a
  /\ length (ServerJs.booking_subject a b) = 18 + length a + length b
  /\ length (Part000.booking_subject a b) = 26 + length a + length b.
Proof.
  unfold ServerJs.contact_subject, Part000.contact_subject,
    ServerJs.booking_subject, Part000.booking_subject.
  repeat split; repeat (rewrite length_app || cbn [length app]);
    change (length ENVELOPE) with 2; change (length CALENDAR) with 2;
    change (length EM_DASH) with 1;
    repeat match goal with
           | |- context [length (tpl ?s)] =>
               let n := eval vm_compute in (length (tpl s)) in
               change (length (tpl s)) with n
           end; lia.
Qed.

(** X17.  The size of a message does not grow with the submission: each
    field enters the subject and the body through [sanitize], at most 500
    code units at a time.  Only the date of a booking enters as the
    runtime formats it. *)
Theorem mail_size_bounded (deps : Deps) (env : Env) :
  (forall req : Contact.Form,
     length (subject (ServerJs.contact_mailOptions deps env req)) <= 520
     /\ length (html (ServerJs.contact_mailOptions deps env req)) <= 2171
     /\ length (subject (Part000.contact_mailOptions deps env req)) <= 520
     /\ length (html (Part000.contact_mailOptions deps env req)) <= 3947)
  /\ (forall req : Booking.Form,
        length (subject (ServerJs.booking_mailOptions deps env req)) <= 1018
        /\ length (html (ServerJs.booking_mailOptions deps env req))
           <= 2722 + length (toLocaleDateString deps
                               (new_Date (fst (ServerJs.booking_date deps req))))
        /\ length (subject (Part000.booking_mailOptions deps env req)) <= 1026
        /\ length (html (Part000.booking_mailOptions deps env req))
           <= 4629 + length (toLocaleDateString_enUS deps
                               (new_Date (fst (Part000.booking_date deps req))))).
Proof.
  assert (C : length (ServerJs.contact_html [] [] []) = 671
              /\ length (Part000.contact_html [] [] []) = 1947
              /\ length (ServerJs.booking_html [] [] [] [] []) = 722
              /\ length (Part000.booking_html [] [] [] [] []) = 2129)
    by (repeat split; vm_compute; reflexivity).
  destruct C as (C1 & C2 & C3 & C4).
  split; intros req; unfold ServerJs.contact_mailOptions,
    Part000.contact_mailOptions, ServerJs.booking_mailOptions,
    Part000.booking_mailOptions; cbn [html subject].
  - rewrite server_contact_html_length, part_contact_html_length, C1, C2.
    rewrite (proj1 (subject_lengths _ [])),
      (proj1 (proj2 (subject_lengths _ []))).
    repeat match goal with
           | |- context [ServerJs.sanitize ?v] =>
               pose proof (proj1 (sanitize_length v));
               generalize dependent (ServerJs.sanitize v); intros
           | |- context [Part000.sanitize ?v] =>
               pose proof (proj2 (sanitize_length v));
               generalize dependent (Part000.sanitize v); intros
           end.
    repeat split; lia.
  - rewrite server_booking_html_length, part_booking_html_length, C3, C4.
    rewrite (proj1 (proj2 (proj2 (subject_lengths _ _)))),
      (proj2 (proj2 (proj2 (subject_lengths _ _)))).
    repeat match goal with
           | |- context [ServerJs.sanitize ?v] =>
               pose proof (proj1 (sanitize_length v));
               generalize dependent (ServerJs.sanitize v); intros
           | |- context [Part000.sanitize ?v] =>
               pose proof (proj2 (sanitize_length v));
               generalize dependent (Part000.sanitize v); intros
           end.
    repeat split; lia.
Qed.

(* ================================================================= *)
(** ** What reaches the message *)

Lemma validator_trim_idem (s : jsstring) :
  validator_trim (validator_trim s) = validator_trim s.
Proof. exact (trimmed_trim _ (trim_trimmed s)). Qed.

Lemma text_chain_pretrimmed (v : value) :
  body [trim_; notEmpty; escape_] (VString (validator_trim (toString v)))
  = body [trim_; notEmpty; escape_] v.
Proof.
  rewrite !text_chain. cbv zeta. cbn [toString String_].
  now rewrite validator_trim_idem.
Qed.

Lemma bounded_text_chain_pretrimmed (deps : Deps) (max : nat) (v : value) :
  body [trim_; notEmpty; isLength_ deps 0 (Some max); escape_]
    (VString (validator_trim (toString v)))
  = body [trim_; notEmpty; isLength_ deps 0 (Some max); escape_] v.
Proof.
  rewrite !bounded_text_chain. cbv zeta. cbn [toString String_].
  now rewrite validator_trim_idem.
Qed.

Lemma message_chain_pretrimmed (deps : Deps) (v : value) :
  body [trim_; notEmpty; isLength_ deps 10 (Some 2000); escape_]
    (VString (validator_trim (toString v)))
  = body [trim_; notEmpty; isLength_ deps 10 (Some 2000); escape_] v.
Proof.
  rewrite !message_chain. cbv zeta. cbn [toString String_].
  now rewrite validator_trim_idem.
Qed.

(** X18.  White space around the name and the message of a contact
    submission, and around the first and last name of a booking, never
    matters: the handler does to the submission what it does to the
    submission with these fields trimmed beforehand. *)
Theorem outer_space_never_matters
    (deps : Deps) (env : Env) (transporter : Mail -> Settled) (w : World) :
  (forall req : Contact.Form,
     ServerJs.post_api_contact deps env transporter (pretrimmed_contact req) w
     = ServerJs.post_api_contact deps env transporter req w
     /\ Part000.post_api_contact deps env transporter (pretrimmed_contact req) w
        = Part000.post_api_contact deps env transporter req w)
  /\ (forall req : Booking.Form,
        ServerJs.post_api_booking deps env transporter (pretrimmed_booking req) w
        = ServerJs.post_api_booking deps env transporter req w
        /\ Part000.post_api_booking deps env transporter (pretrimmed_booking req) w
           = Part000.post_api_booking deps env transporter req w).
Proof.
  split; intros req; split.
  - unfold ServerJs.post_api_contact, ServerJs.contact_validationResult,
      ServerJs.contact_mailOptions, ServerJs.contact_name,
      ServerJs.contact_email, ServerJs.contact_message, pretrimmed_contact.
    cbn [Contact.name Contact.email Contact.message].
    rewrite !text_chain_pretrimmed, !message_chain_pretrimmed. reflexivity.
  - unfold Part000.post_api_contact, Part000.contact_validationResult,
      Part000.contact_mailOptions, Part000.contact_name,
      Part000.contact_email, Part000.contact_message, pretrimmed_contact.
    cbn [Contact.name Contact.email Contact.message].
    rewrite !bounded_text_chain_pretrimmed, !message_chain_pretrimmed.
    reflexivity.
  - unfold ServerJs.post_api_booking, ServerJs.booking_validationResult,
      ServerJs.booking_mailOptions, ServerJs.booking_firstName,
      ServerJs.booking_lastName, ServerJs.booking_email,
      ServerJs.booking_date, ServerJs.booking_time, pretrimmed_booking.
    cbn [Booking.firstName Booking.lastName Booking.email Booking.date
         Booking.time].
    rewrite !text_chain_pretrimmed. reflexivity.
  - unfold Part000.post_api_booking, Part000.booking_validationResult,
      Part000.booking_mailOptions, Part000.booking_firstName,
      Part000.booking_lastName, Part000.booking_email,
      Part000.booking_date, Part000.booking_time, pretrimmed_booking.
    cbn [Booking.firstName Booking.lastName Booking.email Booking.date
         Booking.time].
    rewrite !bounded_text_chain_pretrimmed. reflexivity.
Qed.





